(** * Sairainc/kiryu: the sensor dashboard component

    A shallow embedding of the logic of the [Dashboard] React component,
    which the repository holds in two variants:

    - [src/components/Dashboard.tsx], the plain temperature and humidity
      monitor (called [Plain] below);
    - the later revision with door and image sensors, which also polls
      the endpoint on a timer (called [Sensors] below).

    Both variants contain [filterData] and [getLatestReadings] verbatim;
    they differ in the record that [fetchData] builds and in the effect
    that starts [fetchData].

    Layout: the JavaScript value layer the component relies on
    ([Js]), the calendar functions of [Date] ([JsDate]), the component
    itself ([Dashboard]), the run-time of effects, timers and pending
    requests ([Runtime]), and then the theorems. *)

From Stdlib Require Import ZArith List String Ascii Bool Floats Lia.
From Stdlib Require Import DecimalString DecimalN.
Import ListNotations.

Local Open Scope string_scope.
Local Open Scope Z_scope.
Set Warnings "-register-all".

(* ================================================================= *)
(** ** JavaScript values, as far as the component uses them *)

Module Js.

(** What [response.json()] can deliver, plus [undefined], the result of
    reading a property that is not there.  Numbers are IEEE 754 binary64. *)
Inductive value : Type :=
| Undefined
| Null
| Bool (b : bool)
| Num (x : float)
| Str (s : string)
| Arr (items : list value)
| Obj (fields : list (string * value)).

Inductive error : Type :=
| TypeError
| RangeError
| SyntaxError.

(** A computation either returns or throws. *)
Inductive completion (A : Type) : Type :=
| Normal (a : A)
| Throw (e : error).
Arguments Normal {A} a.
Arguments Throw {A} e.

Definition bind {A B : Type} (c : completion A) (k : A -> completion B)
  : completion B :=
  match c with
  | Normal a => k a
  | Throw e => Throw e
  end.

(** The host: what ECMAScript leaves to the implementation.
    [LocalTZA t] is the offset of local time at UTC time [t];
    [Date_parse] is [Date.parse] ([None] for [NaN]);
    [Number_toString] is [Number::toString] where this file does not
    compute it itself (see [NumberToString]). *)
Record host : Type := {
  LocalTZA : Z -> Z;
  Date_parse : string -> option Z;
  Number_toString : float -> string
}.

(** [ToBoolean]: [undefined], [null], [false], [+0], [-0], [NaN] and the
    empty string are falsy, everything else is truthy. *)
Definition ToBoolean (v : value) : bool :=
  match v with
  | Undefined => false
  | Null => false
  | Bool b => b
  | Num x => negb ((x =? 0)%float || is_nan x)
  | Str s => match s with EmptyString => false | String _ _ => true end
  | Arr _ => true
  | Obj _ => true
  end.

(** [a || b], for an operand [b] without effects. *)
Definition or (a b : value) : value :=
  if ToBoolean a then a else b.

(** The own property [k] of an object built by [JSON.parse]: of several
    entries with one key the last one wins; [Undefined] when there is none. *)
Fixpoint own_property (fields : list (string * value)) (k : string)
  : option value :=
  match fields with
  | [] => None
  | (k', v) :: rest =>
      match own_property rest k with
      | Some w => Some w
      | None => if String.eqb k' k then Some v else None
      end
  end.

(** The property names the component reads from a raw record.  None of
    them is defined on [Object.prototype], [Array.prototype] or on the
    wrappers of the primitives, so a read that finds no own property gives
    [undefined]. *)
Inductive key : Type :=
| k_time
| k_temperature
| k_humidity
| k_doorStatus
| k_imageData.

Definition key_name (k : key) : string :=
  match k with
  | k_time => "time"
  | k_temperature => "temperature"
  | k_humidity => "humidity"
  | k_doorStatus => "doorStatus"
  | k_imageData => "imageData"
  end.

(** [item.k]: a [TypeError] on [undefined] and [null]. *)
Definition Get (item : value) (k : key) : completion value :=
  match item with
  | Undefined => Throw TypeError
  | Null => Throw TypeError
  | Obj fields =>
      match own_property fields (key_name k) with
      | Some v => Normal v
      | None => Normal Undefined
      end
  | Bool _ => Normal Undefined
  | Num _ => Normal Undefined
  | Str _ => Normal Undefined
  | Arr _ => Normal Undefined
  end.

(** Decimal digits of a natural number, ["0"] for zero. *)
Definition digits (n : Z) : string :=
  NilZero.string_of_uint (N.to_uint (Z.to_N n)).

(** Decimal form of an integer. *)
Definition int_string (n : Z) : string :=
  if n <? 0 then "-" ++ digits (- n) else digits n.

(** Comparisons of the positive real [m * 2^e] with an integer [b],
    in exact arithmetic. *)
Definition at_least (m : positive) (e : Z) (b : Z) : bool :=
  if 0 <=? e then b <=? Z.pos m * 2 ^ e
  else b * 2 ^ (- e) <=? Z.pos m.

Definition exceeds (m : positive) (e : Z) (b : Z) : bool :=
  if 0 <=? e then b <? Z.pos m * 2 ^ e
  else b * 2 ^ (- e) <? Z.pos m.

(** The positive real [m * 2^e] as an integer, when it is one. *)
Definition integral (m : positive) (e : Z) : option Z :=
  if 0 <=? e then Some (Z.pos m * 2 ^ e)
  else if Z.pos m mod 2 ^ (- e) =? 0 then Some (Z.pos m / 2 ^ (- e))
  else None.

(** [Number::toString(x)] (radix 10).  Up to 2^53 in magnitude every
    integer is a float and its shortest round-trip form is its decimal
    expansion; for the other finite numbers the shortest round-trip digits
    are taken from the host. *)
Definition NumberToString (h : host) (x : float) : string :=
  match Prim2SF x with
  | S754_nan => "NaN"
  | S754_zero _ => "0"
  | S754_infinity s => if s then "-Infinity" else "Infinity"
  | S754_finite s m e =>
      match integral m e with
      | Some n =>
          if n <=? 9007199254740992
          then (if s then "-" else "") ++ digits n
          else Number_toString h x
      | None => Number_toString h x
      end
  end.

(** [ToString], and likewise [ToPrimitive], of a value that
    [JSON.parse] built.  A plain object prints by
    [Object.prototype.toString] as ["[object Object]"], unless it has an
    own property [toString]: no JSON value is callable, so that
    property hides the inherited method, [valueOf] only returns the
    object itself, and the conversion throws a [TypeError].  An array
    prints by [Array.prototype.join], which converts each element that
    is neither [undefined] nor [null] in turn and so throws when one of
    them does. *)
Fixpoint ToString (h : host) (v : value) : completion string :=
  match v with
  | Undefined => Normal "undefined"
  | Null => Normal "null"
  | Bool b => Normal (if b then "true" else "false")
  | Num x => Normal (NumberToString h x)
  | Str s => Normal s
  | Arr items =>
      (fix join (l : list value) : completion string :=
         match l with
         | [] => Normal ""
         | a :: rest =>
             bind (match a with
                   | Undefined => Normal ""
                   | Null => Normal ""
                   | _ => ToString h a
                   end) (fun sa =>
             match rest with
             | [] => Normal sa
             | _ :: _ => bind (join rest) (fun sr => Normal (sa ++ "," ++ sr))
             end)
         end) items
  | Obj fields =>
      match own_property fields "toString" with
      | Some _ => Throw TypeError
      | None => Normal "[object Object]"
      end
  end.

(** Whether a value converts to a primitive: it is not an object with
    an own [toString], nor an array that holds, at any depth, such an
    object. *)
Fixpoint converts (v : value) : bool :=
  match v with
  | Arr items =>
      (fix all (l : list value) : bool :=
         match l with
         | [] => true
         | a :: rest => converts a && all rest
         end) items
  | Obj fields =>
      match own_property fields "toString" with
      | Some _ => false
      | None => true
      end
  | _ => true
  end.

(** [n] copies of ["0"]. *)
Fixpoint zeros (n : nat) : string :=
  match n with
  | O => ""
  | S n' => String "0" (zeros n')
  end.

(** For a positive real [m * 2^e], the integer [n] for which
    [n / 10^f] is nearest to it, the larger one on a tie. *)
Definition nearest_scaled (m : positive) (e : Z) (f : nat) : Z :=
  let num := Z.pos m * 10 ^ Z.of_nat f in
  if 0 <=? e then num * 2 ^ e
  else (2 * num + 2 ^ (- e)) / (2 * 2 ^ (- e)).

(** Steps 11.b to 11.d of [Number.prototype.toFixed]: the digits of [n]
    with [f] of them after the point. *)
Definition place_point (n : Z) (f : nat) : string :=
  let m := digits n in
  match f with
  | O => m
  | S _ =>
      let k := String.length m in
      let m' := if (k <=? f)%nat then zeros (f + 1 - k) ++ m else m in
      let k' := String.length m' in
      substring 0 (k' - f) m' ++ "." ++ substring (k' - f) f m'
  end.

(** [x.toFixed(f)] for a number [x]: what is not finite prints by
    [Number::toString]; a negative number prints as ["-"] and its
    magnitude; from 10^21 on the magnitude prints by [Number::toString],
    below it as the nearest multiple of [10^-f]. *)
Definition toFixed (h : host) (x : float) (f : nat) : completion string :=
  if (100 <? f)%nat then Throw RangeError
  else
    match Prim2SF x with
    | S754_nan => Normal "NaN"
    | S754_infinity s => Normal (if s then "-Infinity" else "Infinity")
    | S754_zero _ => Normal (place_point 0 f)
    | S754_finite s m e =>
        let sign := if s then "-" else "" in
        if at_least m e (10 ^ 21)
        then Normal (sign ++ NumberToString h (abs x))
        else Normal (sign ++ place_point (nearest_scaled m e f) f)
    end.

(** [v.toFixed(f)] for any value: only numbers have the method. *)
Definition call_toFixed (h : host) (v : value) (f : nat)
  : completion string :=
  match v with
  | Num x => toFixed h x f
  | _ => Throw TypeError
  end.

End Js.

(* ================================================================= *)
(** ** [Date]: time values and the local calendar fields *)

Module JsDate.

Import Js.

(** A [Date] object holds a time value: a whole number of milliseconds
    since the epoch, at most 8.64e15 in magnitude, or [NaN] (an invalid
    date), which is [None] here.  Time values are integers, so they are
    kept in [Z]; the limits they are compared with below are integers
    under 2^53, so the comparison of a rounded binary64 difference with a
    limit has the outcome of the exact comparison. *)
Record Date : Type := mkDate { DateValue : option Z }.

Definition getTime (d : Date) : option Z := DateValue d.

(** [TimeClip] on an exact integer. *)
Definition clip (t : Z) : option Z :=
  if 8640000000000000 <? Z.abs t then None else Some t.

(** The time value of a parsed string: [NaN] stays [NaN]. *)
Definition clip_parsed (p : option Z) : option Z :=
  match p with
  | Some t => clip t
  | None => None
  end.

(** [TimeClip] on a number: [NaN] when it is not finite or beyond
    8.64e15 in magnitude, else its integral part ([ToIntegerOrInfinity]
    truncates towards zero). *)
Definition TimeClip (x : float) : option Z :=
  match Prim2SF x with
  | S754_zero _ => Some 0
  | S754_finite s m e =>
      if exceeds m e 8640000000000000 then None
      else
        let a := if 0 <=? e then Z.pos m * 2 ^ e
                 else Z.pos m / 2 ^ (- e) in
        Some (if s then - a else a)
  | S754_infinity _ => None
  | S754_nan => None
  end.

(** [new Date(v)] for one argument that is not itself a [Date]: a string
    is parsed, anything else goes through [ToNumber]; an array or object
    first becomes a string by [ToPrimitive], which can throw. *)
Definition construct (h : host) (v : value) : completion Date :=
  match v with
  | Undefined => Normal (mkDate None)
  | Null => Normal (mkDate (Some 0))
  | Bool b => Normal (mkDate (Some (if b then 1 else 0)))
  | Num x => Normal (mkDate (TimeClip x))
  | Str s => Normal (mkDate (clip_parsed (Date_parse h s)))
  | Arr _ =>
      bind (ToString h v) (fun s =>
      Normal (mkDate (clip_parsed (Date_parse h s))))
  | Obj _ =>
      bind (ToString h v) (fun s =>
      Normal (mkDate (clip_parsed (Date_parse h s))))
  end.

Definition msPerDay : Z := 86400000.
Definition msPerHour : Z := 3600000.
Definition msPerMinute : Z := 60000.

Definition Day (t : Z) : Z := t / msPerDay.

Definition DayFromYear (y : Z) : Z :=
  365 * (y - 1970) + (y - 1969) / 4 - (y - 1901) / 100 + (y - 1601) / 400.

(** The largest [y] with [DayFromYear y <= Day t]: an estimate from the
    mean length of a year, corrected by one step either way. *)
Definition YearFromTime (t : Z) : Z :=
  let d := Day t in
  let y := 1970 + (d * 400) / 146097 in
  if d <? DayFromYear y then y - 1
  else if DayFromYear (y + 1) <=? d then y + 1
  else y.

Definition DaysInYear (y : Z) : Z :=
  if negb (y mod 4 =? 0) then 365
  else if negb (y mod 100 =? 0) then 366
  else if negb (y mod 400 =? 0) then 365
  else 366.

Definition InLeapYear (t : Z) : Z :=
  if DaysInYear (YearFromTime t) =? 366 then 1 else 0.

Definition DayWithinYear (t : Z) : Z :=
  Day t - DayFromYear (YearFromTime t).

Definition MonthFromTime (t : Z) : Z :=
  let d := DayWithinYear t in
  let l := InLeapYear t in
  if d <? 31 then 0
  else if d <? 59 + l then 1
  else if d <? 90 + l then 2
  else if d <? 120 + l then 3
  else if d <? 151 + l then 4
  else if d <? 181 + l then 5
  else if d <? 212 + l then 6
  else if d <? 243 + l then 7
  else if d <? 273 + l then 8
  else if d <? 304 + l then 9
  else if d <? 334 + l then 10
  else 11.

Definition DateFromTime (t : Z) : Z :=
  let d := DayWithinYear t in
  let l := InLeapYear t in
  match MonthFromTime t with
  | 0 => d + 1
  | 1 => d - 30
  | 2 => d - 58 - l
  | 3 => d - 89 - l
  | 4 => d - 119 - l
  | 5 => d - 150 - l
  | 6 => d - 180 - l
  | 7 => d - 211 - l
  | 8 => d - 242 - l
  | 9 => d - 272 - l
  | 10 => d - 303 - l
  | _ => d - 333 - l
  end.

Definition HourFromTime (t : Z) : Z := (t / msPerHour) mod 24.
Definition MinFromTime (t : Z) : Z := (t / msPerMinute) mod 60.

Definition LocalTime (h : host) (t : Z) : Z := t + LocalTZA h t.

(** The getters give [NaN] ([None]) on an invalid date. *)
Definition getMonth (h : host) (d : Date) : option Z :=
  option_map (fun t => MonthFromTime (LocalTime h t)) (DateValue d).
Definition getDate (h : host) (d : Date) : option Z :=
  option_map (fun t => DateFromTime (LocalTime h t)) (DateValue d).
Definition getHours (h : host) (d : Date) : option Z :=
  option_map (fun t => HourFromTime (LocalTime h t)) (DateValue d).
Definition getMinutes (h : host) (d : Date) : option Z :=
  option_map (fun t => MinFromTime (LocalTime h t)) (DateValue d).

(** A calendar field in a template literal or under [String(...)]. *)
Definition field_string (n : option Z) : string :=
  match n with
  | Some k => int_string k
  | None => "NaN"
  end.

(** [s.padStart(2, '0')]. *)
Definition padStart2 (s : string) : string :=
  match String.length s with
  | O => "00"
  | S O => "0" ++ s
  | _ => s
  end.

End JsDate.

(* ================================================================= *)
(** ** The component *)

Module Dashboard.

Import Js JsDate.

(** The two revisions of the component. *)
Inductive variant : Type :=
| Plain
| Sensors.

(** One element of [data].  The fields hold what the run-time puts
    there: the values come out of an [any], so the declared types
    ([number], ['open' | 'closed'], [{ reading: number }]) are not
    enforced.  A field the [Plain] record does not have reads as
    [Undefined]. *)
Record TemperatureHumidityData : Type := {
  timestamp : string;
  temperature : value;
  humidity : value;
  originalDate : Date;
  doorStatus : value;
  imageData : value
}.

Inductive TimeRange : Type :=
| range_1hour
| range_6hours
| range_24hours
| range_7days
| range_all.

(** [date.getMonth() + 1]. *)
Definition succ_field (n : option Z) : option Z :=
  option_map (fun k => k + 1) n.

(** The template literal that labels a reading. *)
Definition formattedTime (h : host) (date : Date) : string :=
  field_string (succ_field (getMonth h date)) ++ "/"
  ++ field_string (getDate h date) ++ " "
  ++ field_string (getHours h date) ++ ":"
  ++ padStart2 (field_string (getMinutes h date)).

(** The callback of [json.map] in [fetchData]. *)
Definition formatItem (v : variant) (h : host) (item : value)
  : completion TemperatureHumidityData :=
  bind (Get item k_time) (fun time =>
  bind (construct h time) (fun date =>
  bind (Get item k_temperature) (fun t =>
  bind (Get item k_humidity) (fun u =>
  match v with
  | Plain =>
      Normal {| timestamp := formattedTime h date;
                temperature := or t (Num 0);
                humidity := or u (Num 0);
                originalDate := date;
                doorStatus := Undefined;
                imageData := Undefined |}
  | Sensors =>
      bind (Get item k_doorStatus) (fun d =>
      bind (Get item k_imageData) (fun i =>
      Normal {| timestamp := formattedTime h date;
                temperature := or t (Num 0);
                humidity := or u (Num 0);
                originalDate := date;
                doorStatus := or d (Str "closed");
                imageData := or i (Obj [("reading", Num 0)]) |}))
  end)))).

(** [Array.prototype.map] with a callback that may throw. *)
Fixpoint map_items (f : value -> completion TemperatureHumidityData)
  (items : list value) : completion (list TemperatureHumidityData) :=
  match items with
  | [] => Normal []
  | item :: rest =>
      bind (f item) (fun r =>
      bind (map_items f rest) (fun rs => Normal (r :: rs)))
  end.

(** [json.map(...)]: a parsed body that is not an array has no callable
    [map]. *)
Definition formattedData (v : variant) (h : host) (json : value)
  : completion (list TemperatureHumidityData) :=
  match json with
  | Arr items => map_items (formatItem v h) items
  | _ => Throw TypeError
  end.

(** How the request of [fetchData] ends: [fetch] rejects, the body is
    not JSON, or the body parses. *)
Inductive response : Type :=
| Rejected
| Unparsable
| Json (json : value).

(** The state setters [fetchData] and [filterData] call. *)
Inductive setter : Type :=
| setData (d : list TemperatureHumidityData)
| setFilteredData (d : list TemperatureHumidityData)
| setDoorStatus (s : value)
| setLoading (b : bool)
| setError (msg : string)
| setTimeRange (r : TimeRange).

Definition fetch_failed : string := "データの取得に失敗しました".

(** [xs[xs.length - 1]]. *)
Definition last_item (xs : list TemperatureHumidityData)
  : option TemperatureHumidityData :=
  nth_error xs (List.length xs - 1).

(** The [try] block of [fetchData] once the request has ended: the
    setter calls made, and how the block completes. *)
Definition fetchData_try (v : variant) (h : host) (r : response)
  : list setter * completion unit :=
  match r with
  | Rejected => ([], Throw TypeError)
  | Unparsable => ([], Throw SyntaxError)
  | Json json =>
      match formattedData v h json with
      | Throw e => ([], Throw e)
      | Normal fd =>
          match v with
          | Plain => ([setData fd; setLoading false], Normal tt)
          | Sensors =>
              if (0 <? List.length fd)%nat
              then
                match last_item fd with
                | Some l =>
                    ([setData fd; setDoorStatus (doorStatus l);
                      setLoading false], Normal tt)
                | None => ([setData fd], Throw TypeError)
                end
              else ([setData fd; setLoading false], Normal tt)
          end
      end
  end.

(** [fetchData], from the end of its request on: the [try] block and,
    when that throws, the [catch] block. *)
Definition fetchData (v : variant) (h : host) (r : response) : list setter :=
  match fetchData_try v h r with
  | (calls, Normal _) => calls
  | (calls, Throw _) => calls ++ [setError fetch_failed; setLoading false]
  end.

(** The test of the [filter] callback in [filterData]: [diff] is [NaN]
    for an invalid date, and [NaN <= x] is false. *)
Definition at_most (diff : option Z) (limit : Z) : bool :=
  match diff with
  | Some d => d <=? limit
  | None => false
  end.

Definition in_range (now : Z) (timeRange : TimeRange)
  (item : TemperatureHumidityData) : bool :=
  let diff := option_map (fun t => now - t) (getTime (originalDate item)) in
  match timeRange with
  | range_1hour => at_most diff (60 * 60 * 1000)
  | range_6hours => at_most diff (6 * 60 * 60 * 1000)
  | range_24hours => at_most diff (24 * 60 * 60 * 1000)
  | range_7days => at_most diff (7 * 24 * 60 * 60 * 1000)
  | range_all => true
  end.

(** [filterData]: the list handed to [setFilteredData], for the time
    [now] read from [new Date()]. *)
Definition filterData (now : Z) (timeRange : TimeRange)
  (data : list TemperatureHumidityData) : list TemperatureHumidityData :=
  filter (in_range now timeRange) data.

Record readings : Type := { temp : string; humid : string }.

(** [getLatestReadings]. *)
Definition getLatestReadings (h : host)
  (filteredData : list TemperatureHumidityData) : completion readings :=
  if (List.length filteredData =? 0)%nat
  then Normal {| temp := "--"; humid := "--" |}
  else
    match last_item filteredData with
    | None => Throw TypeError
    | Some latest =>
        bind (call_toFixed h (temperature latest) 1) (fun t =>
        bind (call_toFixed h (humidity latest) 1) (fun u =>
        Normal {| temp := t; humid := u |}))
    end.

End Dashboard.

(* ================================================================= *)
(** ** The run-time of one component instance *)

Module Runtime.

Import Js JsDate.

(** The [useState] cells that the logic reads or writes; the cells that
    only steer the markup ([darkMode], [displayType], [currentView],
    [tableDataType]) are left out. *)
Record hooks : Type := {
  data : list Dashboard.TemperatureHumidityData;
  filteredData : list Dashboard.TemperatureHumidityData;
  loading : bool;
  error : option string;
  timeRange : Dashboard.TimeRange;
  doorStatus : value
}.

(** The initial values given to [useState]. *)
Definition initial : hooks :=
  {| data := [];
     filteredData := [];
     loading := true;
     error := None;
     timeRange := Dashboard.range_24hours;
     doorStatus := Str "closed" |}.

Definition apply (s : hooks) (c : Dashboard.setter) : hooks :=
  match c with
  | Dashboard.setData d =>
      {| data := d; filteredData := filteredData s; loading := loading s;
         error := error s; timeRange := timeRange s;
         doorStatus := doorStatus s |}
  | Dashboard.setFilteredData d =>
      {| data := data s; filteredData := d; loading := loading s;
         error := error s; timeRange := timeRange s;
         doorStatus := doorStatus s |}
  | Dashboard.setDoorStatus v =>
      {| data := data s; filteredData := filteredData s;
         loading := loading s; error := error s;
         timeRange := timeRange s; doorStatus := v |}
  | Dashboard.setLoading b =>
      {| data := data s; filteredData := filteredData s; loading := b;
         error := error s; timeRange := timeRange s;
         doorStatus := doorStatus s |}
  | Dashboard.setError msg =>
      {| data := data s; filteredData := filteredData s;
         loading := loading s; error := Some msg;
         timeRange := timeRange s; doorStatus := doorStatus s |}
  | Dashboard.setTimeRange r =>
      {| data := data s; filteredData := filteredData s;
         loading := loading s; error := error s; timeRange := r;
         doorStatus := doorStatus s |}
  end.

Definition apply_all (s : hooks) (cs : list Dashboard.setter) : hooks :=
  fold_left apply cs s.

(** Does a batch of calls replace [data]?  Every [setData] passes a new
    array, so the effect that depends on [data] runs again. *)
Definition sets_data (cs : list Dashboard.setter) : bool :=
  existsb (fun c => match c with Dashboard.setData _ => true | _ => false end)
          cs.

Definition TimeRange_eqb (a b : Dashboard.TimeRange) : bool :=
  match a, b with
  | Dashboard.range_1hour, Dashboard.range_1hour => true
  | Dashboard.range_6hours, Dashboard.range_6hours => true
  | Dashboard.range_24hours, Dashboard.range_24hours => true
  | Dashboard.range_7days, Dashboard.range_7days => true
  | Dashboard.range_all, Dashboard.range_all => true
  | _, _ => false
  end.

(** The second effect, with dependencies [[data, timeRange]]: the call
    [filterData()] makes. *)
Definition filter_effect (now : Z) (s : hooks) : Dashboard.setter :=
  Dashboard.setFilteredData
    (Dashboard.filterData now (timeRange s) (data s)).

Inductive phase : Type :=
| Fresh
| Mounted
| Unmounted.

(** A setter call as it happened: when, and whether the component was
    still mounted. *)
Record call : Type := {
  call_time : Z;
  call_mounted : bool;
  call_setter : Dashboard.setter
}.

(** One instance of the component and its surroundings: the clock in
    milliseconds, the life-cycle phase, the state cells, the next due time
    of the interval timer if one is set, the number of requests in flight,
    the times at which [fetchData] was called, and the setter calls made
    so far. *)
Record world : Type := {
  clock : Z;
  stage : phase;
  cells : hooks;
  timer : option Z;
  pending : nat;
  started : list Z;
  calls : list call
}.

Definition boot (t0 : Z) : world :=
  {| clock := t0; stage := Fresh; cells := initial; timer := None;
     pending := 0; started := []; calls := [] |}.

Inductive event : Type :=
| Mount
| Unmount
| Advance (dt : Z)
| Settle (r : Dashboard.response)
| Select (r : Dashboard.TimeRange).

Definition is_mounted (w : world) : bool :=
  match stage w with
  | Mounted => true
  | _ => false
  end.

Definition record_calls (w : world) (cs : list Dashboard.setter)
  : list call :=
  map (fun c => {| call_time := clock w; call_mounted := is_mounted w;
                   call_setter := c |}) cs.

(** The period passed to [setInterval]. *)
Definition period : Z := 5000.

(** The times at which a timer due at [due] fires, up to and including
    time [t]. *)
Definition firings (due t : Z) : list Z :=
  if due <=? t
  then map (fun i => due + period * Z.of_nat i)
           (seq 0 (Z.to_nat ((t - due) / period) + 1))
  else [].

(** The first effect, with no dependencies: it runs once after the first
    render.  Both variants call [fetchData()]; [Sensors] then calls
    [setInterval(fetchData, 5000)] and returns the clean-up
    [clearInterval(interval)]. *)
Definition mount_effect (v : Dashboard.variant) (now : Z) : option Z :=
  match v with
  | Dashboard.Plain => None
  | Dashboard.Sensors => Some (now + period)
  end.

Definition cleanup (v : Dashboard.variant) (t : option Z) : option Z :=
  match v with
  | Dashboard.Plain => t
  | Dashboard.Sensors => None
  end.

(** One event in the life of the instance.

    - [Mount] (once, on a fresh instance): the state cells take their
      initial values and both effects run, the first calling
      [fetchData()] and, in [Sensors], setting the timer, the second
      calling [filterData()].
    - [Unmount]: the clean-up of the first effect runs.
    - [Advance dt]: [dt] milliseconds pass; the timer, if set, fires at
      each due time passed and each firing calls [fetchData()].
    - [Settle r]: the oldest or any other request in flight ends with
      [r], and [fetchData] resumes after its [await]; when it replaces
      [data], the second effect runs again.
    - [Select r]: the user picks another window, and the second effect
      runs again.

    A state update on a component that is not mounted is dropped by
    React; the setter call is recorded all the same.

    The world after an event is the world at rest, once the effects
    that the event sets off have run; the renders that React commits
    on the way there are those of [commits] below. *)
Definition step (v : Dashboard.variant) (h : host) (w : world) (e : event)
  : world :=
  match e with
  | Mount =>
      match stage w with
      | Fresh =>
          let w1 :=
            {| clock := clock w; stage := Mounted; cells := initial;
               timer := mount_effect v (clock w);
               pending := S (pending w);
               started := started w ++ [clock w];
               calls := calls w |} in
          let c := filter_effect (clock w) initial in
          {| clock := clock w1; stage := Mounted;
             cells := apply (cells w1) c;
             timer := timer w1; pending := pending w1;
             started := started w1;
             calls := calls w1 ++ record_calls w1 [c] |}
      | _ => w
      end
  | Unmount =>
      match stage w with
      | Mounted =>
          {| clock := clock w; stage := Unmounted; cells := cells w;
             timer := cleanup v (timer w); pending := pending w;
             started := started w; calls := calls w |}
      | _ => w
      end
  | Advance dt =>
      let t := clock w + Z.max 0 dt in
      match timer w with
      | None =>
          {| clock := t; stage := stage w; cells := cells w;
             timer := None; pending := pending w;
             started := started w; calls := calls w |}
      | Some due =>
          let fired := firings due t in
          {| clock := t; stage := stage w; cells := cells w;
             timer := Some (due + period * Z.of_nat (List.length fired));
             pending := (pending w + List.length fired)%nat;
             started := started w ++ fired; calls := calls w |}
      end
  | Settle r =>
      match pending w with
      | O => w
      | S p =>
          let cs := Dashboard.fetchData v h r in
          let s1 := apply_all (cells w) cs in
          let fx := if sets_data cs then [filter_effect (clock w) s1]
                    else [] in
          if is_mounted w
          then
            {| clock := clock w; stage := stage w;
               cells := apply_all s1 fx; timer := timer w; pending := p;
               started := started w;
               calls := calls w ++ record_calls w (cs ++ fx) |}
          else
            {| clock := clock w; stage := stage w; cells := cells w;
               timer := timer w; pending := p; started := started w;
               calls := calls w ++ record_calls w cs |}
      end
  | Select r =>
      if is_mounted w && negb (TimeRange_eqb r (timeRange (cells w)))
      then
        let s1 := apply (cells w) (Dashboard.setTimeRange r) in
        let c := filter_effect (clock w) s1 in
        {| clock := clock w; stage := stage w; cells := apply s1 c;
           timer := timer w; pending := pending w; started := started w;
           calls := calls w
                    ++ record_calls w [Dashboard.setTimeRange r; c] |}
      else w
  end.


Definition run (v : Dashboard.variant) (h : host) (w : world)
  (evs : list event) : world :=
  fold_left (step v h) evs w.

End Runtime.

(* ================================================================= *)
(** ** The vocabulary of the specification *)

Module Spec.

Import Js JsDate Dashboard.

(** The duration of a window tag in milliseconds, as the specification
    lists them; ["all"] has none. *)
Definition window_ms (r : TimeRange) : option Z :=
  match r with
  | range_1hour => Some 3600000
  | range_6hours => Some 21600000
  | range_24hours => Some 86400000
  | range_7days => Some 604800000
  | range_all => None
  end.

(** The origin instant of [item] lies within [now - ms]: it is an
    instant, and [now] minus it is at most [ms]. *)
Definition within (now ms : Z) (item : TemperatureHumidityData) : Prop :=
  exists t, getTime (originalDate item) = Some t /\ now - t <= ms.

(** Window [a] lasts at least as long as window [b]; ["all"] is the
    widest. *)
Definition at_least_as_long (a b : TimeRange) : Prop :=
  match window_ms a, window_ms b with
  | None, _ => True
  | Some _, None => False
  | Some x, Some y => y <= x
  end.

(** [selection P l l']: [l'] is [l] with exactly the elements that
    satisfy [P] kept, position by position, in the order of [l]. *)
Inductive selection {A : Type} (P : A -> Prop) : list A -> list A -> Prop :=
| selection_nil : selection P [] []
| selection_keep : forall x l l',
    P x -> selection P l l' -> selection P (x :: l) (x :: l')
| selection_drop : forall x l l',
    ~ P x -> selection P l l' -> selection P (x :: l) l'.

(** [subsequence l' l]: [l'] is [l] with some elements left out. *)
Inductive subsequence {A : Type} : list A -> list A -> Prop :=
| subsequence_nil : subsequence [] []
| subsequence_take : forall x l' l,
    subsequence l' l -> subsequence (x :: l') (x :: l)
| subsequence_skip : forall x l' l,
    subsequence l' l -> subsequence l' (x :: l).

(** The times at which a component mounted at [t0] calls [fetchData]
    when it polls every 5 seconds and [elapsed] milliseconds have gone
    by: [t0], [t0 + 5000], ... up to [t0 + elapsed]. *)
Definition polls (t0 elapsed : Z) : list Z :=
  map (fun i => t0 + 5000 * Z.of_nat i)
      (seq 0 (Z.to_nat (elapsed / 5000) + 1)).

(** The time that a run of events lets pass. *)
Definition elapsed (evs : list Runtime.event) : Z :=
  fold_right (fun e acc =>
                match e with
                | Runtime.Advance dt => Z.max 0 dt + acc
                | _ => acc
                end) 0 evs.

(** No event of the run tears the component down. *)
Definition stays_mounted (evs : list Runtime.event) : Prop :=
  ~ In Runtime.Unmount evs.

(** The setter calls of a world that were made after teardown. *)
Definition late_calls (w : Runtime.world) : list Runtime.call :=
  filter (fun c => negb (Runtime.call_mounted c)) (Runtime.calls w).

(** The first [n + 1] instants of the schedule: [t0], [t0 + 5000], ...,
    [t0 + 5000 n]. *)
Definition ticks (t0 : Z) (n : nat) : list Z :=
  map (fun i => t0 + 5000 * Z.of_nat i) (seq 0 (S n)).

(** What holds of a mounted [Sensors] component that has polled [n]
    times after its first call. *)
Record polling (t0 : Z) (n : nat) (w : Runtime.world) : Prop := {
  polling_stage : Runtime.stage w = Runtime.Mounted;
  polling_timer : Runtime.timer w = Some (t0 + 5000 * Z.of_nat (S n));
  polling_clock : t0 + 5000 * Z.of_nat n <= Runtime.clock w
                  < t0 + 5000 * Z.of_nat (S n);
  polling_started : Runtime.started w = ticks t0 n
}.

(** A request that fails: [fetch] rejects, the body does not parse, or
    normalising the parsed body throws. *)
Definition fails (v : variant) (h : host) (r : response) : Prop :=
  match r with
  | Rejected => True
  | Unparsable => True
  | Json json => exists e, formattedData v h json = Throw e
  end.

(** The natural number that a non-empty string of decimal digits
    denotes. *)
Definition read_digits (s : string) : option Z :=
  option_map (fun d => Z.of_N (N.of_uint d)) (NilZero.uint_of_string s).

(** [s] is a numeral with exactly one digit after the point, and it
    denotes [n / 10]: without the point it reads [n]. *)
Definition tenths (s : string) (n : Z) : Prop :=
  exists (whole : string) (d : ascii),
    s = whole ++ "." ++ String d ""
    /\ whole <> ""
    /\ read_digits (whole ++ String d "") = Some n.

(** [n / 10] is the multiple of a tenth nearest to the positive real
    [m * 2^e], the larger one when two are equally near: with
    [p / q = 2^e], [n] is above [10 m p / q - 1/2] and at most
    [10 m p / q + 1/2]. *)
Definition nearest_tenth (m : positive) (e : Z) (n : Z) : Prop :=
  let p := 2 ^ Z.max 0 e in
  let q := 2 ^ Z.max 0 (- e) in
  2 * (10 * Z.pos m * p) - q < 2 * n * q <= 2 * (10 * Z.pos m * p) + q.

(** [s] shows the number [x] to one decimal place: a zero as ["0.0"],
    another finite number below 10^21 in magnitude as its sign and the
    nearest tenth.  (From 10^21 on, and for what is not finite,
    [toFixed] gives no decimal numeral.) *)
Definition one_decimal_place (x : float) (s : string) : Prop :=
  match Prim2SF x with
  | S754_zero _ => s = "0.0"
  | S754_finite sg m e =>
      at_least m e (10 ^ 21) = false ->
      exists (body : string) (n : Z),
        s = (if sg then "-" else "") ++ body
        /\ tenths body n
        /\ nearest_tenth m e n
  | S754_infinity _ => True
  | S754_nan => True
  end.

(** A host for evaluating the definitions on concrete inputs: local
    time is UTC; no date string is recognised and the numbers that
    [NumberToString] leaves to the host print as the empty string, so it
    stands for a real host only on inputs that reach neither. *)
Definition bare_host : host :=
  {| LocalTZA := fun _ => 0;
     Date_parse := fun _ => None;
     Number_toString := fun _ => "" |}.

(** A reading taken at time [t] with the given temperature and
    humidity, as [Sensors] would build it in UTC from a record without
    door or image fields. *)
Definition reading_at (t : Z) (temp humid : float)
  : TemperatureHumidityData :=
  {| timestamp := formattedTime bare_host (mkDate (Some t));
     temperature := Num temp;
     humidity := Num humid;
     originalDate := mkDate (Some t);
     doorStatus := Str "closed";
     imageData := Obj [("reading", Num 0)] |}.

End Spec.

(* ================================================================= *)
(** ** What the component renders from its state *)

Module View.

Import Js JsDate Dashboard.

(** [filteredData[filteredData.length - 1]?.timestamp || '--'], the
    "last updated" line of the cards: an index past the array reads
    [undefined], [?.] passes it on, and [||] replaces it, like an empty
    label, by ['--']. *)
Definition lastUpdated (filteredData : list TemperatureHumidityData)
  : string :=
  match last_item filteredData with
  | None => "--"
  | Some latest =>
      match timestamp latest with
      | EmptyString => "--"
      | String c s => String c s
      end
  end.

(** [doorStatus === 'open']. *)
Definition is_open (doorStatus : value) : bool :=
  match doorStatus with
  | Str s => String.eqb s "open"
  | _ => false
  end.

(** [doorStatus === 'open' ? '開' : '閉']. *)
Definition doorLabel (doorStatus : value) : string :=
  if is_open doorStatus then "開" else "閉".

(** What stands in the place of the chart and of the table:
    [loading ? spinner : error ? message : content]. *)
Inductive panel : Type :=
| Spinner
| Message (text : string)
| Content.

Definition panel_of (loading : bool) (error : option string) : panel :=
  if loading then Spinner
  else
    match error with
    | Some (String c s) => Message (String c s)
    | Some EmptyString => Content
    | None => Content
    end.

(** [xs.slice(-n)]: the elements from index [max (length - n) 0] on. *)
Definition slice_last {A : Type} (n : nat) (xs : list A) : list A :=
  skipn (List.length xs - n) xs.

(** [xs.map(f)] for a callback that may throw: the first throw ends
    the map. *)
Fixpoint traverse {A B : Type} (f : A -> completion B) (xs : list A)
  : completion (list B) :=
  match xs with
  | [] => Normal []
  | x :: rest =>
      bind (f x) (fun y =>
      bind (traverse f rest) (fun ys => Normal (y :: ys)))
  end.

(** The cells of one row of the temperature and humidity table. *)
Record row : Type := {
  cell_time : string;
  cell_temperature : string;
  cell_humidity : string
}.

Definition temperature_row (h : host) (item : TemperatureHumidityData)
  : completion row :=
  bind (call_toFixed h (temperature item) 1) (fun t =>
  bind (call_toFixed h (humidity item) 1) (fun u =>
  Normal {| cell_time := timestamp item;
            cell_temperature := t;
            cell_humidity := u |})).

(** The rows of the table: [Plain] shows [filteredData.slice(-5)],
    [Sensors] all of [filteredData]. *)
Definition shown (v : variant) (filteredData : list TemperatureHumidityData)
  : list TemperatureHumidityData :=
  match v with
  | Plain => slice_last 5 filteredData
  | Sensors => filteredData
  end.

Definition temperature_table (v : variant) (h : host)
  (filteredData : list TemperatureHumidityData) : completion (list row) :=
  traverse (temperature_row h) (shown v filteredData).

(** [imageData.reading] on a value that is neither [undefined] nor
    [null]: only an object can own the property. *)
Definition reading_of (imageData : value) : value :=
  match imageData with
  | Obj fields =>
      match own_property fields "reading" with
      | Some r => r
      | None => Undefined
      end
  | _ => Undefined
  end.

(** [item.imageData?.reading.toFixed(1)], the cell of the image table:
    [?.] gives [undefined] (no text) for a missing [imageData] and
    guards nothing after it. *)
Definition image_cell (h : host) (item : TemperatureHumidityData)
  : completion (option string) :=
  match imageData item with
  | Undefined => Normal None
  | Null => Normal None
  | i =>
      bind (call_toFixed h (reading_of i) 1) (fun s => Normal (Some s))
  end.

End View.

(* ================================================================= *)
(** ** Further vocabulary *)

Module Props.

Import Js JsDate Dashboard.

(** The temperature and the humidity of a reading are numbers, as its
    declared type says. *)
Definition numeric (r : TemperatureHumidityData) : Prop :=
  (exists t, temperature r = Num t) /\ (exists u, humidity r = Num u).

(** A raw record that the callback of [map] can read: anything but
    [null] and [undefined]. *)
Definition readable (item : value) : Prop :=
  item <> Null /\ item <> Undefined.

(** A raw record that the callback of [map] turns into a reading: it
    can be read, and [new Date] can convert its [time] to a
    primitive. *)
Definition normalisable (item : value) : Prop :=
  readable item
  /\ exists time, Get item k_time = Normal time /\ converts time = true.

(** Induction on a value, with the elements of an array at hand. *)
Section ValueInduction.

Variable P : value -> Prop.
Hypothesis P_Undefined : P Undefined.
Hypothesis P_Null : P Null.
Hypothesis P_Bool : forall b, P (Bool b).
Hypothesis P_Num : forall x, P (Num x).
Hypothesis P_Str : forall s, P (Str s).
Hypothesis P_Arr : forall items, Forall P items -> P (Arr items).
Hypothesis P_Obj : forall fields, P (Obj fields).

Fixpoint value_elements_ind (v : value) : P v :=
  match v with
  | Undefined => P_Undefined
  | Null => P_Null
  | Bool b => P_Bool b
  | Num x => P_Num x
  | Str s => P_Str s
  | Arr items =>
      P_Arr items
        ((fix go (l : list value) : Forall P l :=
            match l with
            | [] => Forall_nil P
            | a :: rest => Forall_cons a (value_elements_ind a) (go rest)
            end) items)
  | Obj fields => P_Obj fields
  end.

End ValueInduction.

(** [chronological_from t l]: the readings of [l] carry valid dates, in
    non-decreasing order, none before [t]. *)
Inductive chronological_from : Z -> list TemperatureHumidityData -> Prop :=
| chronological_nil : forall t, chronological_from t []
| chronological_cons : forall t t' r l,
    getTime (originalDate r) = Some t' ->
    t <= t' ->
    chronological_from t' l ->
    chronological_from t (r :: l).

(** The order the specification assumes of the source sequence. *)
Definition chronological (l : list TemperatureHumidityData) : Prop :=
  exists t, chronological_from t l.

(** The worlds that a component started at [t0] can reach. *)
Definition reachable (v : variant) (h : host) (t0 : Z) (w : Runtime.world)
  : Prop :=
  exists evs, w = Runtime.run v h (Runtime.boot t0) evs.

(** A reading taken at [t] as [Sensors] builds it in UTC, with the given
    raw values for the temperature and the image field. *)
Definition reading_with (t : Z) (temp image : value)
  : TemperatureHumidityData :=
  {| timestamp := formattedTime Spec.bare_host (mkDate (Some t));
     temperature := temp;
     humidity := Num 50;
     originalDate := mkDate (Some t);
     doorStatus := Str "closed";
     imageData := image |}.

End Props.

(* ================================================================= *)
(** * Theorems *)

(** ** Selections and subsequences *)

Section Selection.

Context {A : Type}.
Variable P : A -> Prop.
Variable f : A -> bool.
Hypothesis f_decides : forall x, f x = true <-> P x.

Lemma selection_filter (l : list A) : Spec.selection P l (filter f l).
Proof.
  induction l as [|x l IH]; simpl.
  - constructor.
  - destruct (f x) eqn:E.
    + apply Spec.selection_keep; [apply f_decides; exact E | exact IH].
    + apply Spec.selection_drop; [| exact IH].
      intro HP. apply f_decides in HP. congruence.
Qed.

End Selection.

Lemma selection_unique {A : Type} (P : A -> Prop) (l l1 l2 : list A) :
  Spec.selection P l l1 -> Spec.selection P l l2 -> l1 = l2.
Proof.
  intros H1. revert l2.
  induction H1 as [|x l l1 Hx _ IH|x l l1 Hx _ IH]; intros l2 H2.
  - inversion H2. reflexivity.
  - inversion H2; subst; [f_equal; auto | contradiction].
  - inversion H2; subst; [contradiction | auto].
Qed.

Lemma selection_subsequence {A : Type} (P : A -> Prop) (l l' : list A) :
  Spec.selection P l l' -> Spec.subsequence l' l.
Proof.
  induction 1.
  - apply Spec.subsequence_nil.
  - apply Spec.subsequence_take. assumption.
  - apply Spec.subsequence_skip. assumption.
Qed.

Lemma selection_In {A : Type} (P : A -> Prop) (l l' : list A) :
  Spec.selection P l l' -> forall x, In x l' <-> In x l /\ P x.
Proof.
  induction 1 as [|y l l' Hy _ IH|y l l' Hy _ IH]; intros x; simpl.
  - tauto.
  - rewrite IH. split.
    + intros [->|[Hin HP]]; auto.
    + intros [[->|Hin] HP]; auto.
  - rewrite IH. split.
    + intros [Hin HP]; auto.
    + intros [[->|Hin] HP]; [contradiction | auto].
Qed.

(** ** The time-window filter *)

Module FilterFacts.

Import Js JsDate Dashboard Spec.

Lemma at_most_within (now ms : Z) (item : TemperatureHumidityData) :
  at_most (option_map (fun t => now - t) (getTime (originalDate item))) ms
  = true <-> within now ms item.
Proof.
  unfold within. destruct (getTime (originalDate item)) as [t|]; simpl.
  - rewrite Z.leb_le. split.
    + intros H. exists t. split; [reflexivity | exact H].
    + intros (t' & E & H). injection E as <-. exact H.
  - split; [discriminate | intros (t' & E & _); discriminate].
Qed.

Lemma in_range_bounded (now : Z) (r : TimeRange) (ms : Z)
  (item : TemperatureHumidityData) :
  window_ms r = Some ms ->
  (in_range now r item = true <-> within now ms item).
Proof.
  intros Hr. rewrite <- at_most_within.
  destruct r; simpl in Hr; inversion Hr; subst; reflexivity.
Qed.

Lemma in_range_all (now : Z) (item : TemperatureHumidityData) :
  in_range now range_all item = true.
Proof. reflexivity. Qed.

Lemma in_range_wider (now : Z) (a b : TimeRange)
  (item : TemperatureHumidityData) :
  at_least_as_long a b ->
  in_range now b item = true -> in_range now a item = true.
Proof.
  intros Hab Hb.
  destruct (window_ms a) as [x|] eqn:Ea.
  - destruct (window_ms b) as [y|] eqn:Eb.
    + apply (in_range_bounded now a x item Ea).
      apply (in_range_bounded now b y item Eb) in Hb.
      unfold at_least_as_long in Hab. rewrite Ea, Eb in Hab.
      destruct Hb as (t & Et & Hle). exists t. split; [exact Et | lia].
    + unfold at_least_as_long in Hab. rewrite Ea, Eb in Hab. contradiction.
  - destruct a; simpl in Ea; try discriminate. reflexivity.
Qed.

(** C1. For a bounded window tag (1 hour, 6 hours, 24 hours, 7 days,
    of 3600000, 21600000, 86400000 and 604800000 ms), [filterData]
    returns exactly the readings of the source whose origin instant [t]
    satisfies [now - t <= ms], position by position and in the order of
    the source: the result is that selection, hence a subsequence of the
    source, and a reading is in it iff it is in the source and within
    the window. *)
Theorem filterData_selects_window (now : Z) (r : TimeRange) (ms : Z)
  (data : list TemperatureHumidityData) :
  window_ms r = Some ms ->
  selection (within now ms) data (filterData now r data)
  /\ subsequence (filterData now r data) data
  /\ (forall x, In x (filterData now r data) <-> In x data /\ within now ms x).
Proof.
  intros Hr.
  assert (S : selection (within now ms) data (filterData now r data)).
  { unfold filterData. apply selection_filter.
    intros x. apply in_range_bounded. exact Hr. }
  split; [exact S | split].
  - apply (selection_subsequence _ _ _ S).
  - apply (selection_In _ _ _ S).
Qed.

Lemma filterData_selects_window_witness :
  window_ms range_6hours = Some 21600000
  /\ selection (within 86400000 21600000)
       [reading_at 0 20 50; reading_at 64800000 21 51;
        reading_at 64799999 22 52]
       (filterData 86400000 range_6hours
          [reading_at 0 20 50; reading_at 64800000 21 51;
           reading_at 64799999 22 52])
  /\ filterData 86400000 range_6hours
       [reading_at 0 20 50; reading_at 64800000 21 51;
        reading_at 64799999 22 52]
     = [reading_at 64800000 21 51].
Proof.
  split; [reflexivity | split].
  - apply (filterData_selects_window 86400000 range_6hours 21600000).
    reflexivity.
  - reflexivity.
Defined.

(** C2. The filter is monotonic in the window: when tag [a] lasts at
    least as long as tag [b] (with ["all"] the widest), every reading in
    the result for [b] is in the result for [a], for one source and one
    reference time. *)
Theorem filterData_monotonic (now : Z) (a b : TimeRange)
  (data : list TemperatureHumidityData) :
  at_least_as_long a b ->
  incl (filterData now b data) (filterData now a data).
Proof.
  intros Hab x Hx. unfold filterData in *.
  apply filter_In in Hx. destruct Hx as [Hin Hb].
  apply filter_In. split; [exact Hin |].
  apply (in_range_wider now a b x Hab Hb).
Qed.

Lemma filterData_monotonic_witness :
  at_least_as_long range_7days range_1hour
  /\ incl (filterData 86400000 range_1hour
             [reading_at 0 20 50; reading_at 86000000 21 51])
          (filterData 86400000 range_7days
             [reading_at 0 20 50; reading_at 86000000 21 51]).
Proof.
  split.
  - cbv [at_least_as_long window_ms]. lia.
  - apply (filterData_monotonic 86400000 range_7days range_1hour).
    cbv [at_least_as_long window_ms]. lia.
Defined.

(** C3. With the ["all"] tag the filter is the identity: the result is
    the source, so of the same length and in the same order, whatever
    the reference time. *)
Theorem filterData_all_identity (now : Z)
  (data : list TemperatureHumidityData) :
  filterData now range_all data = data
  /\ List.length (filterData now range_all data) = List.length data.
Proof.
  assert (E : filterData now range_all data = data).
  { unfold filterData. induction data as [|x l IH]; simpl.
    - reflexivity.
    - rewrite IH. reflexivity. }
  split; [exact E | rewrite E; reflexivity].
Qed.

(** C10. A reading dated strictly after [now] is kept by the filter
    under every window tag: its age [now - t] is negative, and the
    filter only asks that the age be at most the window. *)
Theorem filterData_keeps_future (now t : Z) (r : TimeRange)
  (item : TemperatureHumidityData) (data : list TemperatureHumidityData) :
  getTime (originalDate item) = Some t ->
  now < t ->
  In item data ->
  now - t < 0 /\ In item (filterData now r data).
Proof.
  intros Et Hlt Hin. split; [lia |].
  unfold filterData. apply filter_In. split; [exact Hin |].
  destruct (window_ms r) as [ms|] eqn:Er.
  - apply (in_range_bounded now r ms item Er).
    exists t. split; [exact Et |].
    destruct r; simpl in Er; inversion Er; lia.
  - destruct r; simpl in Er; try discriminate. reflexivity.
Qed.

Lemma filterData_keeps_future_witness :
  getTime (originalDate (reading_at 5000 20 50)) = Some 5000
  /\ 1000 < 5000
  /\ In (reading_at 5000 20 50)
        [reading_at 0 19 49; reading_at 5000 20 50]
  /\ 1000 - 5000 < 0
  /\ In (reading_at 5000 20 50)
        (filterData 1000 range_1hour
           [reading_at 0 19 49; reading_at 5000 20 50]).
Proof.
  assert (Hin : In (reading_at 5000 20 50)
                   [reading_at 0 19 49; reading_at 5000 20 50]).
  { right. left. reflexivity. }
  split; [reflexivity | split; [lia | split; [exact Hin |]]].
  apply (filterData_keeps_future 1000 5000 range_1hour
           (reading_at 5000 20 50) _ eq_refl); [lia | exact Hin].
Defined.

End FilterFacts.

(** ** Numbers as text, and the calendar *)

Module NumberFacts.

Import Js JsDate Spec.

Lemma digits_read (n : Z) : 0 <= n -> read_digits (digits n) = Some n.
Proof.
  intros Hn. unfold read_digits, digits.
  pose proof (DecimalN.Unsigned.of_to (Z.to_N n)) as Hof.
  destruct (N.to_uint (Z.to_N n)) eqn:E;
    try (rewrite NilZero.usu by discriminate; cbn [option_map];
         rewrite Hof; f_equal; lia).
  simpl. f_equal. simpl in Hof. lia.
Qed.

Lemma digits_nonempty (n : Z) : exists c rest, digits n = String c rest.
Proof.
  unfold digits.
  destruct (NilZero.string_of_uint (N.to_uint (Z.to_N n))) as [|c rest] eqn:E.
  - exfalso.
    destruct (NilZero.usu_gen (N.to_uint (Z.to_N n))) as [H|H];
      rewrite E in H; discriminate.
  - exists c, rest. reflexivity.
Qed.

(** A non-empty string is its front and its last character. *)
Lemma split_last (s : string) :
  forall j, String.length s = S j ->
  exists (a : string) (d : ascii),
    s = a ++ String d ""
    /\ substring 0 j s = a
    /\ substring j 1 s = String d "".
Proof.
  induction s as [|c s IH]; intros j Hlen; [discriminate |].
  simpl in Hlen. injection Hlen as Hlen.
  destruct s as [|c' s'].
  - simpl in Hlen. subst j. exists "", c. repeat split.
  - destruct j as [|j]; [discriminate |].
    destruct (IH j Hlen) as (a & d & Es & Ea & Ed).
    exists (String c a), d. repeat split.
    + simpl. rewrite <- Es. reflexivity.
    + change (substring 0 (S j) (String c (String c' s')))
        with (String c (substring 0 j (String c' s'))).
      rewrite Ea. reflexivity.
    + change (substring (S j) 1 (String c (String c' s')))
        with (substring j 1 (String c' s')).
      exact Ed.
Qed.

Lemma read_digits_leading_zero (s : string) :
  read_digits (String "0" s) = match s with
                               | EmptyString => Some 0
                               | _ => read_digits s
                               end.
Proof.
  unfold read_digits. destruct s as [|c s]; [reflexivity |].
  cbn [NilZero.uint_of_string NilEmpty.uint_of_string].
  destruct (uint_of_char c (NilEmpty.uint_of_string s)); reflexivity.
Qed.

(** With one digit after the point, [place_point] writes [n / 10]. *)
Lemma place_point_tenths (n : Z) : 0 <= n -> tenths (place_point n 1) n.
Proof.
  intros Hn. unfold place_point.
  pose proof (digits_read n Hn) as Hread.
  destruct (digits_nonempty n) as (c & rest & E). rewrite E in *.
  destruct rest as [|c' rest'].
  - exists "0", c. repeat split; [discriminate |].
    change ("0" ++ String c "") with (String "0" (String c "")).
    rewrite read_digits_leading_zero. exact Hread.
  - set (s := String c (String c' rest')) in *.
    assert (Hk : (String.length s <=? 1)%nat = false) by reflexivity.
    rewrite Hk.
    assert (Hlen : String.length s = S (String.length s - 1)).
    { unfold s. cbn [String.length]. lia. }
    destruct (split_last s _ Hlen) as (a & d & Es & Ea & Ed).
    rewrite Ea, Ed. exists a, d. repeat split.
    + intros ->. simpl in Es. unfold s in Es. discriminate.
    + rewrite <- Es. exact Hread.
Qed.

Lemma nearest_scaled_tenth (m : positive) (e : Z) :
  0 <= nearest_scaled m e 1 /\ nearest_tenth m e (nearest_scaled m e 1).
Proof.
  unfold nearest_scaled, nearest_tenth.
  change (10 ^ Z.of_nat 1) with 10.
  destruct (0 <=? e) eqn:E.
  - apply Z.leb_le in E.
    rewrite (Z.max_r 0 e) by lia. rewrite (Z.max_l 0 (- e)) by lia.
    change (2 ^ 0) with 1.
    assert (0 < 2 ^ e) by (apply Z.pow_pos_nonneg; lia).
    split; nia.
  - apply Z.leb_gt in E.
    rewrite (Z.max_l 0 e) by lia. rewrite (Z.max_r 0 (- e)) by lia.
    change (2 ^ 0) with 1.
    assert (Hq : 0 < 2 ^ (- e)) by (apply Z.pow_pos_nonneg; lia).
    set (q := 2 ^ (- e)) in *.
    set (num := Z.pos m * 10).
    assert (Hnum : 0 < num) by (unfold num; lia).
    pose proof (Z.mul_div_le (2 * num + q) (2 * q) ltac:(lia)) as Hlo.
    pose proof (Z.mul_succ_div_gt (2 * num + q) (2 * q) ltac:(lia)) as Hhi.
    assert (Hpos : 0 <= (2 * num + q) / (2 * q))
      by (apply Z.div_pos; lia).
    split; [exact Hpos |].
    unfold num in *. nia.
Qed.

(** [toFixed(1)] never throws, and what it returns shows the number to
    one decimal place. *)
Lemma toFixed_one_decimal_place (h : host) (x : float) :
  exists s, toFixed h x 1 = Normal s /\ one_decimal_place x s.
Proof.
  unfold toFixed, one_decimal_place. cbn [Nat.ltb Nat.leb].
  destruct (Prim2SF x) as [z|i| |sg m e].
  - eexists. split; reflexivity.
  - eexists. split; [reflexivity | exact I].
  - eexists. split; [reflexivity | exact I].
  - destruct (at_least m e (10 ^ 21)) eqn:L.
    + eexists. split; [reflexivity | discriminate].
    + eexists. split; [reflexivity |]. intros _.
      destruct (nearest_scaled_tenth m e) as [Hpos Hnear].
      exists (place_point (nearest_scaled m e 1) 1), (nearest_scaled m e 1).
      split; [reflexivity | split; [| exact Hnear]].
      apply place_point_tenths. exact Hpos.
Qed.

(** [YearFromTime] is the year that the day of [t] falls in. *)
Lemma YearFromTime_bounds (t : Z) :
  DayFromYear (YearFromTime t) <= Day t < DayFromYear (YearFromTime t + 1).
Proof.
  unfold YearFromTime.
  set (d := Day t). set (y := 1970 + d * 400 / 146097).
  assert (Hest : DayFromYear (y - 1) <= d < DayFromYear (y + 2)).
  { unfold y, DayFromYear. Z.div_mod_to_equations. lia. }
  destruct (d <? DayFromYear y) eqn:E1.
  - apply Z.ltb_lt in E1. replace (y - 1 + 1) with y by lia. lia.
  - apply Z.ltb_ge in E1.
    destruct (DayFromYear (y + 1) <=? d) eqn:E2.
    + apply Z.leb_le in E2. replace (y + 1 + 1) with (y + 2) by lia. lia.
    + apply Z.leb_gt in E2. lia.
Qed.

Lemma DayFromYear_increasing (y y' : Z) :
  y < y' -> DayFromYear y < DayFromYear y'.
Proof.
  intros H. unfold DayFromYear. Z.div_mod_to_equations. lia.
Qed.

(** So it is the largest year that has begun by [t], as ECMAScript
    defines it. *)
Lemma YearFromTime_largest (t y : Z) :
  DayFromYear y <= Day t <-> y <= YearFromTime t.
Proof.
  pose proof (YearFromTime_bounds t) as [Hlo Hhi].
  split; intros H.
  - destruct (Z_le_gt_dec y (YearFromTime t)) as [|Hgt]; [assumption |].
    assert (YearFromTime t + 1 = y \/ YearFromTime t + 1 < y) as [<-|Hlt]
      by lia; [lia |].
    pose proof (DayFromYear_increasing _ _ Hlt). lia.
  - assert (y = YearFromTime t \/ y < YearFromTime t) as [->|Hlt] by lia;
      [assumption |].
    pose proof (DayFromYear_increasing _ _ Hlt). lia.
Qed.

End NumberFacts.

(** ** The latest-reading summary *)

Module SummaryFacts.

Import Js JsDate Dashboard Spec.

Lemma last_item_snoc (fd : list TemperatureHumidityData)
  (latest : TemperatureHumidityData) :
  last_item (fd ++ [latest]) = Some latest.
Proof.
  unfold last_item. rewrite length_app. simpl.
  replace (List.length fd + 1 - 1)%nat with (List.length fd) by lia.
  rewrite nth_error_app2 by lia.
  rewrite Nat.sub_diag. reflexivity.
Qed.

Lemma getLatestReadings_snoc (h : host)
  (fd : list TemperatureHumidityData) (latest : TemperatureHumidityData) :
  getLatestReadings h (fd ++ [latest])
  = bind (call_toFixed h (temperature latest) 1) (fun t =>
    bind (call_toFixed h (humidity latest) 1) (fun u =>
    Normal {| temp := t; humid := u |})).
Proof.
  unfold getLatestReadings. rewrite last_item_snoc.
  rewrite length_app. simpl.
  destruct (List.length fd + 1 =? 0)%nat eqn:E; [| reflexivity].
  apply Nat.eqb_eq in E. lia.
Qed.

Lemma toFixed_20 (h : host) : toFixed h 20 1 = Normal "20.0".
Proof. reflexivity. Qed.

Lemma toFixed_50 (h : host) : toFixed h 50 1 = Normal "50.0".
Proof. reflexivity. Qed.

(** C4. On a non-empty filtered sequence whose last element holds
    numbers (as the declared type of the fields says),
    [getLatestReadings] does not throw and returns the temperature and
    the humidity of the last element, each as [toFixed(1)] formats it:
    to one decimal place, that is as ["0.0"] for a zero and as the sign
    and the nearest tenth for any other finite number below 10^21 in
    magnitude.  In particular a source of one reading taken at [T0] with
    temperature 20 and humidity 50, under the 1-hour window at
    [now = T0], is kept whole by the filter and summarised as ["20.0"]
    and ["50.0"]. *)
Theorem getLatestReadings_last_element :
  (forall (h : host) (fd : list TemperatureHumidityData)
          (latest : TemperatureHumidityData) (t u : float),
      temperature latest = Num t ->
      humidity latest = Num u ->
      exists st su,
        getLatestReadings h (fd ++ [latest])
        = Normal {| temp := st; humid := su |}
        /\ toFixed h t 1 = Normal st /\ one_decimal_place t st
        /\ toFixed h u 1 = Normal su /\ one_decimal_place u su)
  /\ (forall (h : host) (T0 : Z) (r : TemperatureHumidityData),
      getTime (originalDate r) = Some T0 ->
      temperature r = Num 20 ->
      humidity r = Num 50 ->
      filterData T0 range_1hour [r] = [r]
      /\ getLatestReadings h (filterData T0 range_1hour [r])
         = Normal {| temp := "20.0"; humid := "50.0" |}).
Proof.
  split.
  - intros h fd latest t u Ht Hu.
    destruct (NumberFacts.toFixed_one_decimal_place h t) as (st & Hst & Dt).
    destruct (NumberFacts.toFixed_one_decimal_place h u) as (su & Hsu & Du).
    exists st, su. repeat split; try assumption.
    rewrite getLatestReadings_snoc, Ht, Hu. simpl.
    rewrite Hst. simpl. rewrite Hsu. reflexivity.
  - intros h T0 r Hd Ht Hu.
    assert (E : filterData T0 range_1hour [r] = [r]).
    { unfold filterData, in_range. simpl. rewrite Hd. simpl.
      replace (T0 - T0) with 0 by lia. reflexivity. }
    split; [exact E |].
    rewrite E. change [r] with ([] ++ [r])%list.
    rewrite getLatestReadings_snoc, Ht, Hu. reflexivity.
Qed.

Lemma getLatestReadings_last_element_witness :
  temperature (reading_at 1700000000000 21.5 48.25) = Num 21.5
  /\ humidity (reading_at 1700000000000 21.5 48.25) = Num 48.25
  /\ getLatestReadings bare_host
       ([reading_at 1699999000000 20 50]
        ++ [reading_at 1700000000000 21.5 48.25])
     = Normal {| temp := "21.5"; humid := "48.3" |}
  /\ filterData 1700000000000 range_1hour [reading_at 1700000000000 20 50]
     = [reading_at 1700000000000 20 50]
  /\ getLatestReadings bare_host
       (filterData 1700000000000 range_1hour
          [reading_at 1700000000000 20 50])
     = Normal {| temp := "20.0"; humid := "50.0" |}.
Proof.
  split; [reflexivity | split; [reflexivity | split]].
  - destruct (proj1 getLatestReadings_last_element bare_host
                [reading_at 1699999000000 20 50]
                (reading_at 1700000000000 21.5 48.25) 21.5%float 48.25%float
                eq_refl eq_refl) as (st & su & E & Hst & _ & Hsu & _).
    rewrite E. vm_compute in Hst. vm_compute in Hsu.
    injection Hst as <-. injection Hsu as <-. reflexivity.
  - apply (proj2 getLatestReadings_last_element bare_host 1700000000000
             (reading_at 1700000000000 20 50)); reflexivity.
Defined.

(** C5. On the empty filtered sequence [getLatestReadings] returns the
    placeholders ["--"] and ["--"] and does not throw.  In particular a
    source of one reading taken two hours before [now] is filtered to the
    empty list under the 1-hour window, and its summary is the
    placeholders. *)
Theorem getLatestReadings_empty :
  (forall h : host,
      getLatestReadings h [] = Normal {| temp := "--"; humid := "--" |})
  /\ (forall (h : host) (now : Z) (r : TemperatureHumidityData),
      getTime (originalDate r) = Some (now - 2 * 3600000) ->
      filterData now range_1hour [r] = []
      /\ getLatestReadings h (filterData now range_1hour [r])
         = Normal {| temp := "--"; humid := "--" |}).
Proof.
  split; [reflexivity |].
  intros h now r Hd.
  assert (E : filterData now range_1hour [r] = []).
  { unfold filterData, in_range. simpl. rewrite Hd. simpl.
    destruct (now - (now - 7200000) <=? 3600000) eqn:L; [| reflexivity].
    apply Z.leb_le in L. lia. }
  split; [exact E | rewrite E; reflexivity].
Qed.

Lemma getLatestReadings_empty_witness :
  getTime (originalDate (reading_at 1699992800000 20 50))
  = Some (1700000000000 - 2 * 3600000)
  /\ filterData 1700000000000 range_1hour [reading_at 1699992800000 20 50]
     = []
  /\ getLatestReadings bare_host
       (filterData 1700000000000 range_1hour
          [reading_at 1699992800000 20 50])
     = Normal {| temp := "--"; humid := "--" |}.
Proof.
  split; [reflexivity |].
  apply (proj2 getLatestReadings_empty bare_host 1700000000000
           (reading_at 1699992800000 20 50)).
  reflexivity.
Defined.

End SummaryFacts.

(** ** Reading a raw record *)

Module ItemFacts.

Import Js JsDate Dashboard Spec Props.

Lemma Get_readable (item : value) (k : key) :
  readable item -> exists x, Get item k = Normal x.
Proof.
  intros [Hn Hu]. destruct item; simpl;
    try contradiction; try (eexists; reflexivity).
  destruct (own_property fields (key_name k)); eexists; reflexivity.
Qed.

Lemma Get_unreadable (item : value) (k : key) :
  ~ readable item -> Get item k = Throw TypeError.
Proof.
  intros H. destruct item; try reflexivity;
    exfalso; apply H; split; discriminate.
Qed.

Lemma readable_dec (item : value) : {readable item} + {~ readable item}.
Proof.
  destruct item;
    try (left; split; discriminate);
    right; intros [Hn Hu]; congruence.
Qed.

Lemma formatItem_unreadable (v : variant) (h : host) (item : value) :
  ~ readable item -> formatItem v h item = Throw TypeError.
Proof.
  intros H. unfold formatItem. rewrite (Get_unreadable item k_time H).
  reflexivity.
Qed.

Lemma ToString_Arr_cons (h : host) (a : value) (rest : list value) :
  ToString h (Arr (a :: rest))
  = bind (match a with
          | Undefined => Normal ""
          | Null => Normal ""
          | _ => ToString h a
          end) (fun sa =>
    match rest with
    | [] => Normal sa
    | _ :: _ => bind (ToString h (Arr rest))
                     (fun sr => Normal (sa ++ "," ++ sr))
    end).
Proof. reflexivity. Qed.

Lemma converts_Arr_cons (a : value) (rest : list value) :
  converts (Arr (a :: rest)) = converts a && converts (Arr rest).
Proof. reflexivity. Qed.

(** [ToString] throws, always a [TypeError], exactly on the values
    that do not convert. *)
Lemma ToString_converts (h : host) (v : value) :
  (converts v = true <-> exists s, ToString h v = Normal s)
  /\ (forall e, ToString h v = Throw e -> e = TypeError).
Proof.
  induction v as [| |b|x|s|items IH|fields] using value_elements_ind;
    try (split; [split; [intros _; eexists; reflexivity | reflexivity]
                | discriminate]).
  - induction IH as [|a rest [Ha Ea] _ [Hrest Erest]].
    + split; [split; [intros _; eexists; reflexivity | reflexivity]
             | discriminate].
    + rewrite ToString_Arr_cons, converts_Arr_cons.
      assert (Hel : (converts a = true
                     <-> exists s, match a with
                                   | Undefined => Normal ""
                                   | Null => Normal ""
                                   | _ => ToString h a
                                   end = Normal s)
                    /\ (forall e, match a with
                                  | Undefined => Normal ""
                                  | Null => Normal ""
                                  | _ => ToString h a
                                  end = Throw e -> e = TypeError)).
      { destruct a; try (split; [exact Ha | exact Ea]);
          (split; [split; [intros _; eexists; reflexivity | reflexivity]
                  | discriminate]). }
      destruct Hel as [Hel Eel].
      destruct (match a with
                | Undefined => Normal ""
                | Null => Normal ""
                | _ => ToString h a
                end) as [sa|ea] eqn:Esa; cbn [bind].
      * assert (Ca : converts a = true) by (apply Hel; eexists; reflexivity).
        rewrite Ca. cbn [andb].
        destruct rest as [|b rest'].
        -- split; [split; [intros _; eexists; reflexivity | reflexivity]
                  | discriminate].
        -- destruct (ToString h (Arr (b :: rest'))) as [sr|er] eqn:Esr;
             cbn [bind].
           ++ split; [split; [intros _; eexists; reflexivity |]
                     | discriminate].
              intros _. apply Hrest. eexists. reflexivity.
           ++ split; [split |].
              ** intros C. apply Hrest in C. destruct C as [s C].
                 discriminate.
              ** intros [s C]. discriminate.
              ** intros e [= <-]. apply Erest. reflexivity.
      * split; [split |].
        -- intros C. apply andb_prop in C. destruct C as [C _].
           apply Hel in C. destruct C as [s C]. discriminate.
        -- intros [s C]. discriminate.
        -- intros e [= <-]. apply Eel. reflexivity.
  - simpl. destruct (own_property fields "toString").
    + split; [split; [discriminate | intros [s C]; discriminate] |].
      intros e [= <-]. reflexivity.
    + split; [split; [intros _; eexists; reflexivity | reflexivity]
             | discriminate].
Qed.

(** [new Date(v)] throws, a [TypeError], exactly when [v] does not
    convert to a primitive. *)
Lemma construct_converts (h : host) (v : value) :
  (converts v = true <-> exists d, construct h v = Normal d)
  /\ (forall e, construct h v = Throw e -> e = TypeError).
Proof.
  destruct (ToString_converts h v) as [H E].
  destruct v;
    try (split; [split; [intros _; eexists; reflexivity | reflexivity]
                | discriminate]);
    unfold construct;
    (destruct (ToString h _) as [s|e] eqn:Es; cbn [bind];
     [ split; [split; [intros _; eexists; reflexivity |] | discriminate];
       intros _; apply H; eexists; reflexivity
     | split; [split |];
       [ intros C; apply H in C; destruct C as [s C]; discriminate
       | intros [d C]; discriminate
       | intros e' [= <-]; apply E; reflexivity ] ]).
Qed.

(** What a reading that the callback returned tells of its record. *)
Lemma formatItem_inv (v : variant) (h : host) (item : value)
  (r : TemperatureHumidityData) :
  formatItem v h item = Normal r ->
  readable item
  /\ exists time t u d i,
       Get item k_time = Normal time
       /\ Get item k_temperature = Normal t
       /\ Get item k_humidity = Normal u
       /\ Get item k_doorStatus = Normal d
       /\ Get item k_imageData = Normal i
       /\ construct h time = Normal (originalDate r)
       /\ timestamp r = formattedTime h (originalDate r)
       /\ temperature r = or t (Num 0)
       /\ humidity r = or u (Num 0)
       /\ doorStatus r = match v with
                         | Plain => Undefined
                         | Sensors => or d (Str "closed")
                         end
       /\ imageData r = match v with
                        | Plain => Undefined
                        | Sensors => or i (Obj [("reading", Num 0)])
                        end.
Proof.
  intros E.
  destruct (readable_dec item) as [Hr|Hn];
    [| rewrite (formatItem_unreadable v h item Hn) in E; discriminate].
  split; [exact Hr |].
  destruct (Get_readable item k_time Hr) as [time Etime].
  destruct (Get_readable item k_temperature Hr) as [t Et].
  destruct (Get_readable item k_humidity Hr) as [u Eu].
  destruct (Get_readable item k_doorStatus Hr) as [d Ed].
  destruct (Get_readable item k_imageData Hr) as [i Ei].
  exists time, t, u, d, i.
  unfold formatItem in E. rewrite Etime, Et, Eu, Ed, Ei in E. cbn [bind] in E.
  destruct (construct h time) as [date|e] eqn:Ec; [| discriminate].
  cbn [bind] in E.
  destruct v; injection E as <-; repeat split; assumption.
Qed.

(** The callback returns a reading exactly on the records that are
    normalisable, and throws a [TypeError] on the others. *)
Lemma formatItem_normalisable (v : variant) (h : host) (item : value) :
  (normalisable item <-> exists r, formatItem v h item = Normal r)
  /\ (forall e, formatItem v h item = Throw e -> e = TypeError).
Proof.
  destruct (readable_dec item) as [Hr|Hn].
  - destruct (Get_readable item k_time Hr) as [time Etime].
    destruct (Get_readable item k_temperature Hr) as [t Et].
    destruct (Get_readable item k_humidity Hr) as [u Eu].
    destruct (Get_readable item k_doorStatus Hr) as [d Ed].
    destruct (Get_readable item k_imageData Hr) as [i Ei].
    destruct (construct_converts h time) as [Hc Ec].
    unfold normalisable, formatItem.
    rewrite Etime, Et, Eu, Ed, Ei. cbn [bind].
    destruct (construct h time) as [date|e] eqn:Edate; cbn [bind].
    + split; [split |].
      * intros _. destruct v; eexists; reflexivity.
      * intros _. split; [exact Hr |]. exists time.
        split; [reflexivity |]. apply Hc. eexists. reflexivity.
      * destruct v; discriminate.
    + split; [split |].
      * intros (_ & time' & [= <-] & C). apply Hc in C.
        destruct C as [d' C]. discriminate.
      * intros [r C]. discriminate.
      * intros e' [= <-]. apply Ec. reflexivity.
  - rewrite (formatItem_unreadable v h item Hn).
    split; [split |].
    + intros [Hr _]. contradiction.
    + intros [r C]. discriminate.
    + intros e [= <-]. reflexivity.
Qed.

End ItemFacts.

(** ** Normalising a raw record *)

Module NormalizeFacts.

Import Js JsDate Dashboard Spec Props.

Lemma or_missing (d : value) : or Undefined d = d.
Proof. reflexivity. Qed.

(** [x || 0] on a number that is not [NaN]: the result is a number equal
    to [x], and [x] itself unless [x] is a zero. *)
Lemma or_number (x : float) :
  is_nan x = false ->
  exists y, or (Num x) (Num 0) = Num y
            /\ (x =? y)%float = true
            /\ ((x =? 0)%float = false -> y = x).
Proof.
  intros Hnan. unfold or, ToBoolean. rewrite Hnan.
  destruct (x =? 0)%float eqn:Ez; simpl.
  - exists 0%float. repeat split; [exact Ez | discriminate].
  - exists x. repeat split.
    unfold is_nan in Hnan. apply negb_false_iff in Hnan. exact Hnan.
Qed.

Lemma Get_missing (fields : list (string * value)) (k : key) :
  own_property fields (key_name k) = None ->
  Get (Obj fields) k = Normal Undefined.
Proof. intros E. simpl. rewrite E. reflexivity. Qed.

(** C6, as amended.  Normalising a raw record gives a reading unless
    the record is [null] or its [time] cannot be converted to a
    primitive, in which case it throws.  In the reading it gives, a
    [temperature] or [humidity] that is missing (reads as [undefined])
    is 0 and a number that is present is kept (a zero of either sign
    reads as 0), in both variants; in the [Sensors] variant a missing
    [doorStatus] becomes ['closed'], while the reading of the [Plain]
    variant has no [doorStatus] at all. *)
Theorem formatItem_defaults (v : variant) (h : host) (item : value) :
  ((exists r, formatItem v h item = Normal r) <-> normalisable item)
  /\ (forall r : TemperatureHumidityData,
        formatItem v h item = Normal r ->
        (Get item k_temperature = Normal Undefined ->
         temperature r = Num 0)
        /\ (forall x, Get item k_temperature = Normal (Num x) ->
                      is_nan x = false ->
                      exists y, temperature r = Num y
                                /\ (x =? y)%float = true
                                /\ ((x =? 0)%float = false -> y = x))
        /\ (Get item k_humidity = Normal Undefined -> humidity r = Num 0)
        /\ (forall x, Get item k_humidity = Normal (Num x) ->
                      is_nan x = false ->
                      exists y, humidity r = Num y
                                /\ (x =? y)%float = true
                                /\ ((x =? 0)%float = false -> y = x))
        /\ (v = Sensors -> Get item k_doorStatus = Normal Undefined ->
            doorStatus r = Str "closed")
        /\ (v = Plain -> doorStatus r = Undefined)).
Proof.
  split.
  - destruct (ItemFacts.formatItem_normalisable v h item) as [H _].
    split; apply H.
  - intros r E.
    destruct (ItemFacts.formatItem_inv v h item r E)
      as (_ & time & t & u & d & i & _ & Et & Eu & Ed & _ & _ & _
          & Ht & Hu & Hd & _).
    rewrite Ht, Hu, Hd. repeat split.
    + intros G. rewrite Et in G. injection G as ->. reflexivity.
    + intros x G Hnan. rewrite Et in G. injection G as ->.
      apply or_number. exact Hnan.
    + intros G. rewrite Eu in G. injection G as ->. reflexivity.
    + intros x G Hnan. rewrite Eu in G. injection G as ->.
      apply or_number. exact Hnan.
    + intros -> G. rewrite Ed in G. injection G as ->. reflexivity.
    + intros ->. reflexivity.
Qed.

Lemma formatItem_defaults_witness :
  normalisable (Obj [("time", Num 1700000000000); ("humidity", Num 48.5)])
  /\ Get (Obj [("time", Num 1700000000000); ("humidity", Num 48.5)])
         k_temperature = Normal Undefined
  /\ Get (Obj [("time", Num 1700000000000); ("humidity", Num 48.5)])
         k_humidity = Normal (Num 48.5)
  /\ is_nan 48.5 = false
  /\ Get (Obj [("time", Num 1700000000000); ("humidity", Num 48.5)])
         k_doorStatus = Normal Undefined
  /\ exists r,
       formatItem Sensors bare_host
         (Obj [("time", Num 1700000000000); ("humidity", Num 48.5)])
       = Normal r
       /\ temperature r = Num 0
       /\ humidity r = Num 48.5
       /\ doorStatus r = Str "closed".
Proof.
  assert (N : normalisable
                (Obj [("time", Num 1700000000000); ("humidity", Num 48.5)])).
  { split; [split; discriminate |]. eexists. split; reflexivity. }
  split; [exact N |]. repeat (split; [reflexivity |]).
  destruct (formatItem_defaults Sensors bare_host
              (Obj [("time", Num 1700000000000); ("humidity", Num 48.5)]))
    as [Hex Hfields].
  destruct (proj2 Hex N) as [r Hr].
  destruct (Hfields r Hr) as (Ht & _ & _ & Hu & Hd & _).
  exists r. split; [exact Hr | split; [| split]].
  - apply Ht. reflexivity.
  - destruct (Hu 48.5%float eq_refl eq_refl) as (y & Hy & _ & Hkeep).
    rewrite Hy. rewrite (Hkeep eq_refl). reflexivity.
  - apply Hd; reflexivity.
Defined.

(** C6, as stated, fails on the [Plain] variant: from a record without
    [doorStatus] it builds a reading whose [doorStatus] is [undefined],
    not ['closed'].  It also fails, in either variant, on a record whose
    [time] cannot be converted to a primitive: [new Date] throws, and
    no reading is built. *)
Lemma formatItem_Plain_has_no_doorStatus :
  (own_property [("time", Num 0); ("temperature", Num 20);
                 ("humidity", Num 50)] "doorStatus" = None
   /\ formatItem Plain bare_host
        (Obj [("time", Num 0); ("temperature", Num 20);
              ("humidity", Num 50)])
      = Normal {| timestamp := "1/1 0:00";
                  temperature := Num 20;
                  humidity := Num 50;
                  originalDate := mkDate (Some 0);
                  doorStatus := Undefined;
                  imageData := Undefined |}
   /\ Undefined <> Str "closed")
  /\ formatItem Plain bare_host
       (Obj [("time", Obj [("toString", Num 1)]);
             ("temperature", Num 20); ("humidity", Num 50)])
     = Throw TypeError
  /\ formatItem Sensors bare_host
       (Obj [("time", Obj [("toString", Num 1)]);
             ("temperature", Num 20); ("humidity", Num 50)])
     = Throw TypeError.
Proof.
  split; [split; [reflexivity | split; [reflexivity | discriminate]] |].
  split; reflexivity.
Qed.

(** A record that is [null] makes the callback, and with it the whole
    [map], throw. *)
Lemma formattedData_null_item (v : variant) (h : host)
  (before after : list value) :
  (forall item, In item before -> normalisable item) ->
  formattedData v h (Arr (before ++ Null :: after)) = Throw TypeError.
Proof.
  intros Hobj. simpl.
  induction before as [|item before IH]; simpl.
  - reflexivity.
  - destruct (proj1 (proj1 (ItemFacts.formatItem_normalisable v h item))
                (Hobj item (or_introl eq_refl))) as [r ->].
    simpl. rewrite IH; [reflexivity |].
    intros i Hi. apply Hobj. right. exact Hi.
Qed.

(** So does, through [fetchData], a record whose [time] is an array
    holding an object with an own [toString]. *)
Lemma fetchData_unconvertible_time :
  fetchData Sensors bare_host
    (Json (Arr [Obj [("time", Arr [Obj [("toString", Num 1)]])]]))
  = [setError fetch_failed; setLoading false].
Proof. reflexivity. Qed.

End NormalizeFacts.

(** ** Mounting, polling and teardown *)

Module RuntimeFacts.

Import Js JsDate Dashboard Runtime Spec.

Lemma run_app (v : variant) (h : host) (w : world) (evs evs' : list event) :
  run v h w (evs ++ evs') = run v h (run v h w evs) evs'.
Proof. unfold run. apply fold_left_app. Qed.

Lemma run_cons (v : variant) (h : host) (w : world) (e : event)
  (evs : list event) :
  run v h w (e :: evs) = run v h (step v h w e) evs.
Proof. reflexivity. Qed.

Lemma polls_ticks (t0 el : Z) (n : nat) :
  t0 + 5000 * Z.of_nat n <= t0 + el < t0 + 5000 * Z.of_nat (S n) ->
  polls t0 el = ticks t0 n.
Proof.
  intros H. unfold polls, ticks.
  replace (Z.to_nat (el / 5000) + 1)%nat with (S n); [reflexivity |].
  assert (E : el / 5000 = Z.of_nat n).
  { symmetry. apply Z.div_unique with (r := el - 5000 * Z.of_nat n); lia. }
  rewrite E. lia.
Qed.

Lemma firings_none (due t : Z) : t < due -> firings due t = [].
Proof.
  intros H. unfold firings.
  destruct (due <=? t) eqn:E; [apply Z.leb_le in E; lia | reflexivity].
Qed.

Lemma firings_some (due t : Z) :
  due <= t ->
  exists m : nat,
    firings due t = ticks due m
    /\ due + 5000 * Z.of_nat m <= t < due + 5000 * Z.of_nat (S m).
Proof.
  intros H. unfold firings, period, ticks.
  destruct (due <=? t) eqn:E; [| apply Z.leb_gt in E; lia].
  exists (Z.to_nat ((t - due) / 5000)).
  split.
  - rewrite Nat.add_1_r. reflexivity.
  - assert (0 <= (t - due) / 5000) by (apply Z.div_pos; lia).
    rewrite Nat2Z.inj_succ, Z2Nat.id by assumption.
    pose proof (Z.mul_div_le (t - due) 5000 ltac:(lia)).
    pose proof (Z.mul_succ_div_gt (t - due) 5000 ltac:(lia)).
    lia.
Qed.

Lemma map_seq_from {B : Type} (g : nat -> B) (len a : nat) :
  map g (seq a len) = map (fun i => g (a + i)%nat) (seq 0 len).
Proof.
  revert g a. induction len as [|len IH]; intros g a; simpl.
  - reflexivity.
  - rewrite Nat.add_0_r. f_equal.
    rewrite (IH g (S a)), (IH (fun i => g (a + i)%nat) 1%nat).
    apply map_ext. intros i. f_equal. lia.
Qed.

Lemma ticks_extend (t0 : Z) (n m : nat) :
  (ticks t0 n ++ ticks (t0 + 5000 * Z.of_nat (S n)) m)%list
  = ticks t0 (n + S m).
Proof.
  unfold ticks.
  replace (S (n + S m)) with (S n + S m)%nat by lia.
  rewrite seq_app, map_app. f_equal.
  rewrite (map_seq_from (fun i => t0 + 5000 * Z.of_nat i) (S m) (0 + S n)).
  apply map_ext. intros i. lia.
Qed.

(** Linear arithmetic, with the facts about lists of instants set
    aside. *)
Ltac arith :=
  repeat match goal with
         | H : @eq (list Z) _ _ |- _ => clear H
         end;
  lia.

Lemma polling_step (h : host) (t0 : Z) (n : nat) (w : world) (e : event) :
  polling t0 n w ->
  e <> Unmount ->
  exists n', polling t0 n' (step Sensors h w e)
             /\ clock (step Sensors h w e)
                = clock w + elapsed [e].
Proof.
  intros [Hs Ht Hc Hst] Hne.
  destruct e as [| |dt|r|r]; cbn [elapsed fold_right].
  - exists n. unfold step. rewrite Hs.
    split; [constructor; assumption | arith].
  - contradiction.
  - unfold step. rewrite Ht.
    set (t := clock w + Z.max 0 dt).
    destruct (Z_lt_le_dec t (t0 + 5000 * Z.of_nat (S n))) as [Hlt|Hle].
    + exists n. rewrite (firings_none _ _ Hlt).
      cbn [List.length clock]. unfold period.
      split; [| unfold t; arith].
      constructor; cbn [stage timer clock started].
      * exact Hs.
      * f_equal. arith.
      * unfold t in *. arith.
      * rewrite app_nil_r. exact Hst.
    + destruct (firings_some _ _ Hle) as (m & -> & Hm).
      exists (n + S m)%nat. unfold ticks at 1 2.
      rewrite length_map, length_seq. cbn [clock]. unfold period.
      split; [| unfold t; arith].
      constructor; cbn [stage timer clock started].
      * exact Hs.
      * f_equal. arith.
      * fold t. arith.
      * rewrite Hst. apply (ticks_extend t0 n m).
  - exists n. unfold step.
    destruct (pending w) as [|p]; [split; [constructor; assumption | arith] |].
    unfold is_mounted. rewrite Hs. cbn [clock].
    split; [constructor; cbn [stage timer clock started]; auto | arith].
  - exists n. unfold step, is_mounted. rewrite Hs. cbn [andb].
    destruct (negb (TimeRange_eqb r (timeRange (cells w))));
      (split; [constructor; cbn [stage timer clock started]; auto
              | cbn [clock]; arith]).
Qed.

Lemma elapsed_cons (e : event) (evs : list event) :
  elapsed (e :: evs) = elapsed [e] + elapsed evs.
Proof. destruct e; simpl; lia. Qed.

Lemma polling_run (h : host) (t0 : Z) (evs : list event) :
  forall (n : nat) (w : world),
    polling t0 n w ->
    stays_mounted evs ->
    exists n', polling t0 n' (run Sensors h w evs)
               /\ clock (run Sensors h w evs) = clock w + elapsed evs.
Proof.
  induction evs as [|e evs IH]; intros n w Hp Hm.
  - exists n. simpl. split; [exact Hp | lia].
  - rewrite run_cons, elapsed_cons.
    destruct (polling_step h t0 n w e Hp) as (n1 & Hp1 & Hc1).
    { intros ->. apply Hm. left. reflexivity. }
    destruct (IH n1 _ Hp1) as (n2 & Hp2 & Hc2).
    { intros Hin. apply Hm. right. exact Hin. }
    exists n2. split; [exact Hp2 | lia].
Qed.

Lemma polling_mount (h : host) (t0 : Z) :
  polling t0 0 (step Sensors h (boot t0) Mount).
Proof.
  constructor; cbn [step boot stage timer clock started mount_effect app].
  - reflexivity.
  - unfold period. f_equal; lia.
  - lia.
  - unfold ticks. cbn [seq map]. f_equal; lia.
Qed.

(** Once torn down, a component starts no request, whatever happens. *)
Lemma unmounted_step (v : variant) (h : host) (w : world) (e : event) :
  stage w = Unmounted -> timer w = None ->
  stage (step v h w e) = Unmounted
  /\ timer (step v h w e) = None
  /\ started (step v h w e) = started w.
Proof.
  intros Hs Ht.
  destruct e as [| |dt|r|r]; simpl; unfold is_mounted;
    rewrite ?Hs, ?Ht; simpl; auto.
  destruct (pending w); simpl; auto.
Qed.

Lemma unmounted_run (v : variant) (h : host) (evs : list event) :
  forall w, stage w = Unmounted -> timer w = None ->
            started (run v h w evs) = started w.
Proof.
  induction evs as [|e evs IH]; intros w Hs Ht; [reflexivity |].
  rewrite run_cons.
  destruct (unmounted_step v h w e Hs Ht) as (Hs1 & Ht1 & E1).
  rewrite (IH _ Hs1 Ht1). exact E1.
Qed.

(** The [Plain] component has no timer, and only mounting starts a
    request. *)
Lemma plain_step (h : host) (w : world) (e : event) :
  timer w = None -> stage w <> Fresh ->
  timer (step Plain h w e) = None
  /\ stage (step Plain h w e) <> Fresh
  /\ started (step Plain h w e) = started w.
Proof.
  intros Ht Hs.
  destruct e as [| |dt|r|r]; unfold step.
  - destruct (stage w) eqn:E; [contradiction | |];
      rewrite ?E; repeat split; auto; discriminate.
  - destruct (stage w) eqn:E; cbn [timer stage started cleanup];
      rewrite ?E; repeat split; auto; discriminate.
  - rewrite Ht. cbn [timer stage started]. auto.
  - destruct (pending w); [auto |].
    destruct (is_mounted w); cbn [timer stage started]; auto.
  - destruct (is_mounted w && negb (TimeRange_eqb r (timeRange (cells w))));
      cbn [timer stage started]; auto.
Qed.

Lemma plain_run (h : host) (evs : list event) :
  forall w, timer w = None -> stage w <> Fresh ->
            timer (run Plain h w evs) = None
            /\ started (run Plain h w evs) = started w.
Proof.
  induction evs as [|e evs IH]; intros w Ht Hs; [split; auto |].
  rewrite run_cons.
  destruct (plain_step h w e Ht Hs) as (Ht1 & Hs1 & E1).
  destruct (IH _ Ht1 Hs1) as [Ht2 E2].
  split; [exact Ht2 | congruence].
Qed.

End RuntimeFacts.

(** ** When [fetchData] runs *)

Module ScheduleFacts.

Import Js JsDate Dashboard Runtime Spec RuntimeFacts.

(** C7, as amended.  In the [Sensors] variant [fetchData] is called
    when the component mounts and then every 5000 ms for as long as it
    stays mounted (whatever responses arrive and whatever window is
    selected meanwhile); teardown cancels the timer and no call follows
    it.  In the [Plain] variant [fetchData] is called once, on mount:
    there is no timer, and no later call. *)
Theorem fetchData_schedule :
  (forall (h : host) (t0 : Z) (evs evs' : list event),
      stays_mounted evs ->
      started (run Sensors h (boot t0) (Mount :: evs))
      = polls t0 (elapsed evs)
      /\ timer (run Sensors h (boot t0) (Mount :: evs ++ [Unmount])%list)
         = None
      /\ started
           (run Sensors h (boot t0) (Mount :: evs ++ Unmount :: evs')%list)
         = polls t0 (elapsed evs))
  /\ (forall (h : host) (t0 : Z) (evs : list event),
      timer (run Plain h (boot t0) (Mount :: evs)) = None
      /\ started (run Plain h (boot t0) (Mount :: evs)) = [t0]).
Proof.
  split.
  - intros h t0 evs evs' Hm.
    rewrite !run_cons.
    destruct (polling_run h t0 evs 0 _ (polling_mount h t0) Hm)
      as (n & [Hs Ht Hc Hst] & Hclock).
    assert (Hpolls : polls t0 (elapsed evs) = ticks t0 n).
    { apply polls_ticks.
      replace (clock (step Sensors h (boot t0) Mount)) with t0 in Hclock
        by reflexivity.
      rewrite Hclock in Hc. exact Hc. }
    assert (Hdown :
      stage (step Sensors h (run Sensors h (step Sensors h (boot t0) Mount)
                               evs) Unmount) = Unmounted
      /\ timer (step Sensors h (run Sensors h (step Sensors h (boot t0) Mount)
                                  evs) Unmount) = None
      /\ started (step Sensors h (run Sensors h
                                    (step Sensors h (boot t0) Mount)
                                    evs) Unmount) = ticks t0 n).
    { unfold step at 1 3 5. rewrite Hs.
      cbn [stage timer started cleanup]. auto. }
    destruct Hdown as (Hs' & Ht' & Hst').
    split; [congruence | split].
    + rewrite run_app. exact Ht'.
    + rewrite run_app, run_cons.
      rewrite (unmounted_run Sensors h evs' _ Hs' Ht'). congruence.
  - intros h t0 evs. rewrite run_cons.
    apply (plain_run h evs (step Plain h (boot t0) Mount)).
    + reflexivity.
    + discriminate.
Qed.

Lemma fetchData_schedule_witness :
  stays_mounted [Advance 7000; Settle Rejected; Advance 4000]
  /\ started (run Sensors bare_host (boot 1000)
                [Mount; Advance 7000; Settle Rejected; Advance 4000])
     = [1000; 6000; 11000]
  /\ started (run Sensors bare_host (boot 1000)
                [Mount; Advance 7000; Settle Rejected; Advance 4000;
                 Unmount; Advance 60000])
     = [1000; 6000; 11000].
Proof.
  assert (Hm : stays_mounted [Advance 7000; Settle Rejected; Advance 4000]).
  { intros [H|[H|[H|[]]]]; discriminate. }
  split; [exact Hm |].
  destruct (proj1 fetchData_schedule bare_host 1000
              [Advance 7000; Settle Rejected; Advance 4000]
              [Advance 60000] Hm) as (E1 & _ & E2).
  split.
  - rewrite E1. reflexivity.
  - exact E2.
Defined.

(** C7, as stated, fails on the [Plain] variant: five seconds after
    mounting it has called [fetchData] once, at mount, and not a second
    time; it has set no timer. *)
Lemma Plain_does_not_poll :
  started (run Plain bare_host (boot 0) [Mount; Advance 5000]) = [0]
  /\ polls 0 5000 = [0; 5000]
  /\ timer (run Plain bare_host (boot 0) [Mount]) = None
  /\ started (run Plain bare_host (boot 0) [Mount; Advance 5000])
     <> polls 0 5000.
Proof.
  repeat split; try reflexivity. discriminate.
Qed.

End ScheduleFacts.

(** ** A request that fails, and a response that comes late *)

Module FetchFacts.

Import Js JsDate Dashboard Runtime Spec RuntimeFacts.

Lemma last_item_nonempty (fd : list TemperatureHumidityData) :
  (0 <? List.length fd)%nat = true -> exists l, last_item fd = Some l.
Proof.
  intros H. apply Nat.ltb_lt in H. unfold last_item.
  destruct (nth_error fd (List.length fd - 1)) as [l|] eqn:E.
  - exists l. reflexivity.
  - apply nth_error_None in E. lia.
Qed.

(** The [catch] block is all that runs of a failed request. *)
Lemma fetchData_fails (v : variant) (h : host) (r : response) :
  fails v h r ->
  fetchData v h r = [setError fetch_failed; setLoading false].
Proof.
  intros F. unfold fetchData, fetchData_try.
  destruct r as [| |json]; try reflexivity.
  destruct F as [e ->]. reflexivity.
Qed.

(** A request that does not fail replaces [data]. *)
Lemma fetchData_succeeds (v : variant) (h : host) (json : value)
  (fd : list TemperatureHumidityData) :
  formattedData v h json = Normal fd ->
  exists rest, fetchData v h (Json json) = setData fd :: rest
               /\ ~ In (setError fetch_failed) rest.
Proof.
  intros E. unfold fetchData, fetchData_try. rewrite E.
  destruct v.
  - eexists. split; [reflexivity |]. intros [H|[]]. discriminate.
  - destruct (0 <? List.length fd)%nat eqn:L.
    + destruct (last_item_nonempty fd L) as [l ->].
      eexists. split; [reflexivity |]. intros [H|[H|[]]]; discriminate.
    + eexists. split; [reflexivity |]. intros [H|[]]. discriminate.
Qed.

(** C8, as amended.  When a request fails ([fetch] rejects, the body
    is not JSON, or normalising it throws), [fetchData] calls
    [setError] with the fixed message and [setLoading(false)] and
    nothing else, in both variants alike: the error is set, and [data]
    and [filteredData] stay as they were. *)
Theorem fetchData_failure_keeps_data (v : variant) (h : host)
  (r : response) (s : hooks) :
  fails v h r ->
  fetchData v h r
  = [setError "データの取得に失敗しました"; setLoading false]
  /\ error (apply_all s (fetchData v h r))
     = Some "データの取得に失敗しました"
  /\ loading (apply_all s (fetchData v h r)) = false
  /\ data (apply_all s (fetchData v h r)) = data s
  /\ filteredData (apply_all s (fetchData v h r)) = filteredData s
  /\ (forall (w : world) (p : nat),
        stage w = Mounted -> pending w = S p -> cells w = s ->
        cells (step v h w (Settle r)) = apply_all s (fetchData v h r)).
Proof.
  intros F. rewrite (fetchData_fails v h r F).
  repeat split.
  intros w p Hs Hp <-. unfold step. rewrite Hp.
  rewrite (fetchData_fails v h r F).
  unfold is_mounted. rewrite Hs. reflexivity.
Qed.

Lemma fetchData_failure_keeps_data_witness :
  fails Sensors bare_host (Json (Arr [Null]))
  /\ fetchData Sensors bare_host (Json (Arr [Null]))
     = [setError "データの取得に失敗しました"; setLoading false]
  /\ data (apply_all (apply initial (setData [reading_at 0 20 50]))
             (fetchData Sensors bare_host (Json (Arr [Null]))))
     = [reading_at 0 20 50].
Proof.
  assert (F : fails Sensors bare_host (Json (Arr [Null]))).
  { exists TypeError. reflexivity. }
  split; [exact F |].
  destruct (fetchData_failure_keeps_data Sensors bare_host
              (Json (Arr [Null]))
              (apply initial (setData [reading_at 0 20 50])) F)
    as (E & _ & _ & D & _).
  split; [exact E | exact D].
Defined.

(** C8, as stated, fails: neither variant clears [data].  On a rejected
    request both make the same two calls, and readings fetched before
    are still there afterwards; in the [Sensors] variant, a successful
    poll followed by a failed one leaves the reading of the first in
    [data] and [filteredData]. *)
Lemma no_variant_clears_data :
  fetchData Plain bare_host Rejected
  = [setError fetch_failed; setLoading false]
  /\ fetchData Sensors bare_host Rejected
     = [setError fetch_failed; setLoading false]
  /\ data (apply_all (apply initial (setData [reading_at 0 20 50]))
             (fetchData Plain bare_host Rejected))
     = [reading_at 0 20 50]
  /\ data (apply_all (apply initial (setData [reading_at 0 20 50]))
             (fetchData Sensors bare_host Rejected))
     = [reading_at 0 20 50]
  /\ data (cells (run Sensors bare_host (boot 0)
                    [Mount;
                     Settle (Json (Arr [Obj [("time", Num 0);
                                             ("temperature", Num 20);
                                             ("humidity", Num 50)]]));
                     Advance 5000;
                     Settle Rejected]))
     = [reading_at 0 20 50]
  /\ [reading_at 0 20 50] <> [].
Proof.
  repeat split; try reflexivity. discriminate.
Qed.

(** C9, as amended.  Nothing guards a response that arrives after
    teardown: teardown leaves the requests in flight as they are (it only
    cancels the timer of the [Sensors] variant), and when one of them ends
    on a component that is no longer mounted, [fetchData] makes the very
    calls it makes on a mounted one, at least one of them. *)
Theorem late_response_is_not_guarded (v : variant) (h : host)
  (r : response) (w : world) (p : nat) :
  stage w = Unmounted ->
  pending w = S p ->
  calls (step v h w (Settle r))
  = (calls w
     ++ map (fun c => {| call_time := clock w; call_mounted := false;
                         call_setter := c |})
            (fetchData v h r))%list
  /\ In (setLoading false) (fetchData v h r)
  /\ (forall w0 : world,
        pending (step v h w0 Unmount) = pending w0)
  /\ (forall (w1 : world) (p1 : nat),
        stage w1 = Mounted -> pending w1 = S p1 ->
        exists fx,
          calls (step v h w1 (Settle r))
          = (calls w1
             ++ map (fun c => {| call_time := clock w1;
                                 call_mounted := true;
                                 call_setter := c |})
                    (fetchData v h r ++ fx))%list).
Proof.
  intros Hs Hp. repeat split.
  - unfold step. rewrite Hp. unfold record_calls, is_mounted.
    rewrite Hs. reflexivity.
  - unfold fetchData, fetchData_try.
    destruct r as [| |json]; simpl; auto.
    destruct (formattedData v h json) as [fd|e]; simpl; auto.
    destruct v; simpl; auto.
    destruct (0 <? List.length fd)%nat eqn:L; simpl; auto.
    destruct (last_item_nonempty fd L) as [l ->]. simpl. auto.
  - intros w0. unfold step. destruct (stage w0); reflexivity.
  - intros w1 p1 Hs1 Hp1. unfold step. rewrite Hp1.
    unfold record_calls, is_mounted. rewrite Hs1.
    eexists. reflexivity.
Qed.

Lemma late_response_is_not_guarded_witness :
  stage (run Sensors bare_host (boot 0) [Mount; Unmount]) = Unmounted
  /\ pending (run Sensors bare_host (boot 0) [Mount; Unmount]) = 1%nat
  /\ calls (run Sensors bare_host (boot 0)
              [Mount; Unmount; Settle (Json (Arr []))])
     = [ {| call_time := 0; call_mounted := true;
            call_setter := setFilteredData [] |};
         {| call_time := 0; call_mounted := false;
            call_setter := setData [] |};
         {| call_time := 0; call_mounted := false;
            call_setter := setLoading false |} ].
Proof.
  split; [reflexivity | split; [reflexivity |]].
  destruct (late_response_is_not_guarded Sensors bare_host
              (Json (Arr []))
              (run Sensors bare_host (boot 0) [Mount; Unmount]) 0
              eq_refl eq_refl) as (E & _).
  exact E.
Defined.

(** C9, as stated, fails in both variants: a request started on mount
    whose response arrives after teardown still calls [setData] and
    [setLoading]. *)
Lemma response_after_teardown_calls_setters :
  late_calls (run Plain bare_host (boot 0)
                [Mount; Unmount; Settle (Json (Arr []))])
  = [ {| call_time := 0; call_mounted := false;
         call_setter := setData [] |};
      {| call_time := 0; call_mounted := false;
         call_setter := setLoading false |} ]
  /\ late_calls (run Sensors bare_host (boot 0)
                   [Mount; Advance 1000; Unmount; Advance 200;
                    Settle Rejected])
     = [ {| call_time := 1200; call_mounted := false;
            call_setter := setError fetch_failed |};
         {| call_time := 1200; call_mounted := false;
            call_setter := setLoading false |} ]
  /\ late_calls (run Plain bare_host (boot 0)
                   [Mount; Unmount; Settle (Json (Arr []))]) <> [].
Proof.
  repeat split; try reflexivity. discriminate.
Qed.

End FetchFacts.

(** ** The examples of the specification, run from the raw body *)

Module Examples.

Import Js JsDate Dashboard Runtime Spec.

(** One record taken at [T0] with temperature 20 and humidity 50; the
    1-hour window is selected and the response arrives at [T0]. *)
Example one_reading_now :
  let w := run Sensors bare_host (boot 1700000000000)
             [Mount; Select range_1hour;
              Settle (Json (Arr [Obj [("time", Num 1700000000000);
                                      ("temperature", Num 20);
                                      ("humidity", Num 50)]]))] in
  data (cells w) = [reading_at 1700000000000 20 50]
  /\ filteredData (cells w) = data (cells w)
  /\ getLatestReadings bare_host (filteredData (cells w))
     = Normal {| temp := "20.0"; humid := "50.0" |}
  /\ timestamp (reading_at 1700000000000 20 50) = "11/14 22:13".
Proof. repeat split. Qed.

(** One record taken two hours before the response arrives, under the
    1-hour window. *)
Example one_reading_two_hours_old :
  let w := run Plain bare_host (boot 1700000000000)
             [Mount; Select range_1hour;
              Settle (Json (Arr [Obj [("time", Num 1699992800000);
                                      ("temperature", Num 20);
                                      ("humidity", Num 50)]]))] in
  List.length (data (cells w)) = 1%nat
  /\ filteredData (cells w) = []
  /\ getLatestReadings bare_host (filteredData (cells w))
     = Normal {| temp := "--"; humid := "--" |}.
Proof. repeat split. Qed.

(** A temperature that arrives as a string is kept as it is by the
    normalisation, and the summary then throws. *)
Example string_temperature :
  let w := run Sensors bare_host (boot 1700000000000)
             [Mount;
              Settle (Json (Arr [Obj [("time", Num 1700000000000);
                                      ("temperature", Str "21.5");
                                      ("humidity", Num 50)]]))] in
  map temperature (filteredData (cells w)) = [Str "21.5"]
  /\ getLatestReadings bare_host (filteredData (cells w)) = Throw TypeError.
Proof. repeat split. Qed.

(** A body that is not an array, or that holds a [null] record, is a
    failed request. *)
Example malformed_bodies :
  fetchData Sensors bare_host (Json (Obj [("error", Str "quota")]))
  = [setError fetch_failed; setLoading false]
  /\ fetchData Plain bare_host (Json (Arr [Obj []; Null]))
     = [setError fetch_failed; setLoading false]
  /\ fetchData Plain bare_host Unparsable
     = [setError fetch_failed; setLoading false].
Proof. repeat split. Qed.

End Examples.

(* ================================================================= *)
(** * Further properties of the code *)

(** ** Which bodies normalise, and to what *)

Module BodyFacts.

Import Js JsDate Dashboard Spec Props.

Lemma map_items_Normal (v : variant) (h : host) (items : list value) :
  forall fd,
    map_items (formatItem v h) items = Normal fd ->
    Forall2 (fun item r => normalisable item
                           /\ formatItem v h item = Normal r)
            items fd.
Proof.
  induction items as [|item items IH]; intros fd E; simpl in E.
  - injection E as <-. constructor.
  - destruct (formatItem v h item) as [r|e] eqn:Er; [| discriminate].
    simpl in E.
    destruct (map_items (formatItem v h) items) as [rs|e] eqn:Ers;
      [| discriminate].
    simpl in E. injection E as <-.
    constructor; [| apply IH; reflexivity].
    split; [| exact Er].
    apply (proj1 (ItemFacts.formatItem_normalisable v h item)).
    exists r. exact Er.
Qed.

Lemma map_items_normalisable (v : variant) (h : host) (items : list value) :
  Forall normalisable items ->
  exists fd, map_items (formatItem v h) items = Normal fd.
Proof.
  induction 1 as [|item items Hn _ IH]; simpl.
  - eexists. reflexivity.
  - destruct (proj1 (proj1 (ItemFacts.formatItem_normalisable v h item)) Hn)
      as [r ->].
    destruct IH as [fd ->]. eexists. reflexivity.
Qed.

(** X1. A parsed body normalises exactly when it is an array each of
    whose elements is normalisable: not [null], and with a [time] that
    [new Date] can convert to a primitive (so not an object with an own
    [toString] property, nor an array holding one).  Any other body,
    and any array with one element that is not, makes the whole [map]
    throw. *)
Theorem formattedData_succeeds_iff (v : variant) (h : host) (json : value) :
  (exists fd, formattedData v h json = Normal fd)
  <-> (exists items, json = Arr items /\ Forall normalisable items).
Proof.
  split.
  - intros [fd E]. destruct json; try discriminate.
    exists items. split; [reflexivity |].
    apply map_items_Normal in E.
    induction E as [|item r items fd [Hr _] _ IH]; constructor; assumption.
  - intros (items & -> & Hall). apply map_items_normalisable. exact Hall.
Qed.

Lemma formattedData_succeeds_iff_witness :
  (exists items,
      Arr [Num 1; Str "x"; Obj [("time", Arr [Obj []; Null])]] = Arr items
      /\ Forall normalisable items)
  /\ (exists fd,
        formattedData Plain bare_host
          (Arr [Num 1; Str "x"; Obj [("time", Arr [Obj []; Null])]])
        = Normal fd)
  /\ formattedData Plain bare_host (Arr [Obj []; Null]) = Throw TypeError
  /\ formattedData Plain bare_host
       (Arr [Obj [("time", Obj [("toString", Num 1)])]])
     = Throw TypeError.
Proof.
  assert (H : exists items,
             Arr [Num 1; Str "x"; Obj [("time", Arr [Obj []; Null])]]
             = Arr items
             /\ Forall normalisable items).
  { eexists. split; [reflexivity |].
    repeat constructor; try discriminate;
      eexists; split; reflexivity. }
  split; [exact H | split; [| split; reflexivity]].
  apply (proj2 (formattedData_succeeds_iff Plain bare_host
                  (Arr [Num 1; Str "x";
                        Obj [("time", Arr [Obj []; Null])]]))).
  exact H.
Defined.

(** X2. When a body normalises, the result has one reading for each
    record, in the order of the body, and each reading is what the
    callback makes of its record: no record is dropped, merged or
    reordered. *)
Theorem formattedData_pointwise (v : variant) (h : host)
  (items : list value) (fd : list TemperatureHumidityData) :
  formattedData v h (Arr items) = Normal fd ->
  List.length fd = List.length items
  /\ Forall2 (fun item r => formatItem v h item = Normal r) items fd
  /\ (forall n item, nth_error items n = Some item ->
        exists r, nth_error fd n = Some r
                  /\ formatItem v h item = Normal r).
Proof.
  intros E. apply map_items_Normal in E.
  assert (F : Forall2 (fun item r => formatItem v h item = Normal r)
                      items fd).
  { induction E as [|item r items fd [_ Hr] _ IH]; constructor; assumption. }
  split; [symmetry; apply (Forall2_length F) | split; [exact F |]].
  clear E. induction F as [|item r items fd Hr _ IH]; intros n x Hn.
  - destruct n; discriminate.
  - destruct n as [|n]; simpl in *.
    + injection Hn as <-. exists r. split; [reflexivity | exact Hr].
    + apply IH. exact Hn.
Qed.

Lemma formattedData_pointwise_witness :
  formattedData Sensors bare_host
    (Arr [Obj [("time", Num 0); ("temperature", Num 20);
               ("humidity", Num 50)];
          Obj [("time", Num 60000); ("temperature", Num 21);
               ("humidity", Num 51)]])
  = Normal [reading_at 0 20 50; reading_at 60000 21 51]
  /\ List.length [reading_at 0 20 50; reading_at 60000 21 51] = 2%nat.
Proof.
  split; [reflexivity |].
  apply (formattedData_pointwise Sensors bare_host
           [Obj [("time", Num 0); ("temperature", Num 20);
                 ("humidity", Num 50)];
            Obj [("time", Num 60000); ("temperature", Num 21);
                 ("humidity", Num 51)]]).
  reflexivity.
Defined.

Lemma or_truthy (a d : value) : ToBoolean d = true -> ToBoolean (or a d) = true.
Proof.
  intros Hd. unfold or. destruct (ToBoolean a) eqn:E; assumption.
Qed.

Lemma or_default_or_truthy (a d : value) :
  or a d = d \/ (or a d = a /\ ToBoolean a = true).
Proof.
  unfold or. destruct (ToBoolean a); auto.
Qed.

(** X3. Whatever a readable record holds, the reading built from it
    has a temperature and a humidity that are either the default 0 or a
    truthy value: never [undefined], [null], [NaN], [false] or the
    empty string.  In the [Sensors] variant its [doorStatus] and
    [imageData] are always truthy. *)
Theorem formatItem_fields_never_falsy (v : variant) (h : host)
  (item : value) (r : TemperatureHumidityData) :
  formatItem v h item = Normal r ->
  (temperature r = Num 0 \/ ToBoolean (temperature r) = true)
  /\ (humidity r = Num 0 \/ ToBoolean (humidity r) = true)
  /\ (v = Sensors ->
      ToBoolean (doorStatus r) = true /\ ToBoolean (imageData r) = true).
Proof.
  intros E.
  destruct (ItemFacts.formatItem_inv v h item r E)
    as (_ & time & t & u & d & i & _ & _ & _ & _ & _ & _ & _
        & Ht & Hu & Hd & Hi).
  rewrite Ht, Hu, Hd, Hi.
  split; [| split].
  - destruct (or_default_or_truthy t (Num 0)) as [->|[-> T]]; auto.
  - destruct (or_default_or_truthy u (Num 0)) as [->|[-> T]]; auto.
  - intros ->. split; apply or_truthy; reflexivity.
Qed.

Lemma formatItem_fields_never_falsy_witness :
  formatItem Sensors bare_host
    (Obj [("temperature", Null); ("humidity", Str "");
          ("doorStatus", Bool false); ("imageData", Num 0)])
  = Normal {| timestamp := "NaN/NaN NaN:NaN";
              temperature := Num 0;
              humidity := Num 0;
              originalDate := mkDate None;
              doorStatus := Str "closed";
              imageData := Obj [("reading", Num 0)] |}
  /\ (Num 0 = Num 0 \/ ToBoolean (Num 0) = true).
Proof.
  split; [reflexivity |].
  apply (formatItem_fields_never_falsy Sensors bare_host
           (Obj [("temperature", Null); ("humidity", Str "");
                 ("doorStatus", Bool false); ("imageData", Num 0)])
           _ eq_refl).
Defined.

End BodyFacts.

(** ** The label of a reading *)

Module LabelFacts.

Import Js JsDate Dashboard Spec Props.

Lemma DaysInYear_cases (y : Z) : DaysInYear y = 365 \/ DaysInYear y = 366.
Proof.
  unfold DaysInYear.
  destruct (negb (y mod 4 =? 0)); auto.
  destruct (negb (y mod 100 =? 0)); auto.
  destruct (negb (y mod 400 =? 0)); auto.
Qed.

Lemma DayFromYear_next (y : Z) :
  DayFromYear (y + 1) = DayFromYear y + DaysInYear y.
Proof.
  unfold DayFromYear, DaysInYear.
  destruct (y mod 4 =? 0) eqn:E4; simpl negb; cbv iota.
  - apply Z.eqb_eq in E4.
    destruct (y mod 100 =? 0) eqn:E100; simpl negb; cbv iota.
    + apply Z.eqb_eq in E100.
      destruct (y mod 400 =? 0) eqn:E400; simpl negb; cbv iota.
      * apply Z.eqb_eq in E400. Z.div_mod_to_equations. lia.
      * apply Z.eqb_neq in E400. Z.div_mod_to_equations. lia.
    + apply Z.eqb_neq in E100. Z.div_mod_to_equations. lia.
  - apply Z.eqb_neq in E4. Z.div_mod_to_equations. lia.
Qed.

Lemma InLeapYear_DaysInYear (t : Z) :
  (InLeapYear t = 0 \/ InLeapYear t = 1)
  /\ DaysInYear (YearFromTime t) = 365 + InLeapYear t.
Proof.
  unfold InLeapYear.
  destruct (DaysInYear_cases (YearFromTime t)) as [E|E]; rewrite E;
    simpl; split; auto.
Qed.

Lemma DayWithinYear_bounds (t : Z) :
  0 <= DayWithinYear t < 365 + InLeapYear t.
Proof.
  unfold DayWithinYear.
  pose proof (NumberFacts.YearFromTime_bounds t) as [Hlo Hhi].
  rewrite DayFromYear_next in Hhi.
  destruct (InLeapYear_DaysInYear t) as [_ E]. rewrite E in Hhi. lia.
Qed.

Lemma MonthFromTime_DateFromTime_bounds (t : Z) :
  0 <= MonthFromTime t <= 11 /\ 1 <= DateFromTime t <= 31.
Proof.
  pose proof (DayWithinYear_bounds t) as Hd.
  destruct (InLeapYear_DaysInYear t) as [Hl _].
  unfold DateFromTime, MonthFromTime.
  set (d := DayWithinYear t) in *. set (l := InLeapYear t) in *.
  repeat match goal with
         | |- context [?a <? ?b] =>
             let E := fresh "E" in
             destruct (a <? b) eqn:E;
             [apply Z.ltb_lt in E | apply Z.ltb_ge in E]
         end; cbv iota; lia.
Qed.

Lemma minutes_two_digits (k : Z) :
  0 <= k < 60 ->
  String.length (padStart2 (int_string k)) = 2%nat
  /\ read_digits (padStart2 (int_string k)) = Some k.
Proof.
  intros Hk.
  assert (H : forall n : nat, (n < 60)%nat ->
            String.length (padStart2 (int_string (Z.of_nat n))) = 2%nat
            /\ read_digits (padStart2 (int_string (Z.of_nat n)))
               = Some (Z.of_nat n)).
  { intros n Hn.
    do 60 (destruct n as [|n]; [split; reflexivity |]). lia. }
  rewrite <- (Z2Nat.id k) by lia. apply H. lia.
Qed.

(** X4. The label of a reading with a valid date is
    [M/D H:MM] in local time: the month is between 1 and 12 (the code
    adds 1 to the zero-based month), the day between 1 and 31, the hour
    between 0 and 23, none of them padded, and the minutes are always
    two digits, between 00 and 59. *)
Theorem formattedTime_fields (h : host) (t : Z) :
  exists (M D H Mi : Z) (mm : string),
    formattedTime h (mkDate (Some t))
    = int_string M ++ "/" ++ int_string D ++ " " ++ int_string H
      ++ ":" ++ mm
    /\ M = MonthFromTime (LocalTime h t) + 1 /\ 1 <= M <= 12
    /\ D = DateFromTime (LocalTime h t) /\ 1 <= D <= 31
    /\ H = HourFromTime (LocalTime h t) /\ 0 <= H <= 23
    /\ Mi = MinFromTime (LocalTime h t) /\ 0 <= Mi <= 59
    /\ String.length mm = 2%nat /\ read_digits mm = Some Mi.
Proof.
  set (lt := LocalTime h t).
  destruct (MonthFromTime_DateFromTime_bounds lt) as [HM HD].
  assert (HH : 0 <= HourFromTime lt < 24)
    by (unfold HourFromTime; apply Z.mod_pos_bound; lia).
  assert (HMi : 0 <= MinFromTime lt < 60)
    by (unfold MinFromTime; apply Z.mod_pos_bound; lia).
  destruct (minutes_two_digits _ HMi) as [Hlen Hread].
  exists (MonthFromTime lt + 1), (DateFromTime lt), (HourFromTime lt),
         (MinFromTime lt), (padStart2 (int_string (MinFromTime lt))).
  repeat split; try lia; try assumption.
Qed.

Lemma formattedTime_fields_witness :
  formattedTime bare_host (mkDate (Some 1700000000000)) = "11/14 22:13"
  /\ formattedTime bare_host (mkDate (Some 1704067505000)) = "1/1 0:05"
  /\ exists M D H Mi : Z,
       1 <= M <= 12 /\ 1 <= D <= 31 /\ 0 <= H <= 23 /\ 0 <= Mi <= 59
       /\ M = MonthFromTime (LocalTime bare_host 1704067505000) + 1.
Proof.
  split; [reflexivity | split; [reflexivity |]].
  destruct (formattedTime_fields bare_host 1704067505000)
    as (M & D & H & Mi & mm & _ & EM & HM & _ & HD & _ & HH & _ & HMi & _).
  exists M, D, H, Mi. repeat split; try lia.
Defined.

Lemma formatItem_label (v : variant) (h : host) (item : value)
  (r : TemperatureHumidityData) :
  formatItem v h item = Normal r ->
  timestamp r = formattedTime h (originalDate r).
Proof.
  intros E.
  destruct (ItemFacts.formatItem_inv v h item r E)
    as (_ & time & t & u & d & i & _ & _ & _ & _ & _ & _ & Hl & _).
  exact Hl.
Qed.

(** X5. A record without a [time] gets an invalid date.  A reading
    with an invalid date is labelled ["NaN/NaN NaN:NaN"], is left out by
    every bounded window whatever the reference time, and is kept by
    ["all"]. *)
Theorem invalid_date_reading :
  (forall (v : variant) (h : host) (fields : list (string * value))
          (r : TemperatureHumidityData),
      own_property fields "time" = None ->
      formatItem v h (Obj fields) = Normal r ->
      getTime (originalDate r) = None)
  /\ (forall (v : variant) (h : host) (item : value)
             (r : TemperatureHumidityData),
      formatItem v h item = Normal r ->
      getTime (originalDate r) = None ->
      timestamp r = "NaN/NaN NaN:NaN"
      /\ (forall (now : Z) (data : list TemperatureHumidityData),
            In r data ->
            In r (filterData now range_all data)
            /\ (forall tr ms, window_ms tr = Some ms ->
                              ~ In r (filterData now tr data)))).
Proof.
  split.
  - intros v h fields r Ht E.
    destruct (ItemFacts.formatItem_inv v h (Obj fields) r E)
      as (_ & time & t & u & d & i & Et & _ & _ & _ & _ & Hd & _).
    unfold Get in Et. simpl key_name in Et. rewrite Ht in Et.
    injection Et as <-. simpl in Hd. injection Hd as <-. reflexivity.
  - intros v h item r E Hinv. split.
    + rewrite (formatItem_label v h item r E).
      destruct (originalDate r) as [[t|]]; [discriminate | reflexivity].
    + intros now data Hin. split.
      * unfold filterData. apply filter_In. split; [exact Hin | reflexivity].
      * intros tr ms Htr Hf. unfold filterData in Hf.
        apply filter_In in Hf. destruct Hf as [_ Hf].
        apply (FilterFacts.in_range_bounded now tr ms r Htr) in Hf.
        destruct Hf as (t & Et & _). congruence.
Qed.

Lemma invalid_date_reading_witness :
  own_property [("temperature", Num 20); ("humidity", Num 50)] "time" = None
  /\ formatItem Plain bare_host
       (Obj [("temperature", Num 20); ("humidity", Num 50)])
     = Normal {| timestamp := "NaN/NaN NaN:NaN";
                 temperature := Num 20;
                 humidity := Num 50;
                 originalDate := mkDate None;
                 doorStatus := Undefined;
                 imageData := Undefined |}
  /\ getTime (originalDate
                {| timestamp := "NaN/NaN NaN:NaN";
                   temperature := Num 20;
                   humidity := Num 50;
                   originalDate := mkDate None;
                   doorStatus := Undefined;
                   imageData := Undefined |}) = None
  /\ filterData 0 range_7days
       [{| timestamp := "NaN/NaN NaN:NaN";
           temperature := Num 20;
           humidity := Num 50;
           originalDate := mkDate None;
           doorStatus := Undefined;
           imageData := Undefined |}] = [].
Proof.
  split; [reflexivity | split; [reflexivity | split; [| reflexivity]]].
  apply (proj1 invalid_date_reading Plain bare_host
           [("temperature", Num 20); ("humidity", Num 50)] _ eq_refl).
  reflexivity.
Defined.

End LabelFacts.

(** ** More on the time-window filter *)

Module WindowFacts.

Import Js JsDate Dashboard Spec Props View.

Lemma filter_absorbs {A : Type} (f g : A -> bool) (l : list A) :
  (forall x, g x = true -> f x = true) ->
  filter f (filter g l) = filter g l.
Proof.
  intros H. induction l as [|x l IH]; simpl; [reflexivity |].
  destruct (g x) eqn:E; simpl; [rewrite (H x E), IH; reflexivity | exact IH].
Qed.

Lemma filter_swap {A : Type} (f g : A -> bool) (l : list A) :
  filter f (filter g l) = filter g (filter f l).
Proof.
  induction l as [|x l IH]; simpl; [reflexivity |].
  destruct (g x) eqn:Eg; destruct (f x) eqn:Ef; simpl;
    rewrite ?Eg, ?Ef, IH; reflexivity.
Qed.

(** X6. Filtering twice at one reference time gives the result of the
    narrower window, in either order: a window at least as long as the
    one already applied changes nothing (so the filter is idempotent),
    and two windows commute. *)
Theorem filterData_twice (now : Z) (a b : TimeRange)
  (data : list TemperatureHumidityData) :
  (at_least_as_long a b ->
   filterData now a (filterData now b data) = filterData now b data
   /\ filterData now b (filterData now a data) = filterData now b data)
  /\ filterData now a (filterData now a data) = filterData now a data
  /\ filterData now a (filterData now b data)
     = filterData now b (filterData now a data).
Proof.
  unfold filterData. split; [| split].
  - intros Hab.
    assert (E : filter (in_range now a) (filter (in_range now b) data)
                = filter (in_range now b) data).
    { apply filter_absorbs. intros x.
      apply (FilterFacts.in_range_wider now a b x Hab). }
    split; [exact E | rewrite filter_swap; exact E].
  - apply filter_absorbs. auto.
  - apply filter_swap.
Qed.

Lemma filterData_twice_witness :
  at_least_as_long range_24hours range_1hour
  /\ filterData 86400000 range_24hours
       (filterData 86400000 range_1hour
          [reading_at 0 20 50; reading_at 86000000 21 51])
     = [reading_at 86000000 21 51]
  /\ filterData 86400000 range_1hour
       (filterData 86400000 range_24hours
          [reading_at 0 20 50; reading_at 86000000 21 51])
     = [reading_at 86000000 21 51].
Proof.
  assert (H : at_least_as_long range_24hours range_1hour)
    by (cbv [at_least_as_long window_ms]; lia).
  split; [exact H |].
  destruct (proj1 (filterData_twice 86400000 range_24hours range_1hour
                     [reading_at 0 20 50; reading_at 86000000 21 51]) H)
    as [E1 E2].
  split; [rewrite E1 | rewrite E2]; reflexivity.
Defined.

Lemma in_range_earlier (now now' : Z) (r : TimeRange)
  (item : TemperatureHumidityData) :
  now <= now' -> in_range now' r item = true -> in_range now r item = true.
Proof.
  intros Hle H.
  destruct (window_ms r) as [ms|] eqn:Er.
  - apply (FilterFacts.in_range_bounded now r ms item Er).
    apply (FilterFacts.in_range_bounded now' r ms item Er) in H.
    destruct H as (t & Et & Ht). exists t. split; [exact Et | lia].
  - destruct r; simpl in Er; try discriminate. reflexivity.
Qed.

(** X7. As the reference time moves on, readings only leave a window:
    what the filter keeps at a later time it also keeps at an earlier
    one, and filtering at the later time what was kept at the earlier
    time loses nothing. *)
Theorem filterData_later (now now' : Z) (r : TimeRange)
  (data : list TemperatureHumidityData) :
  now <= now' ->
  incl (filterData now' r data) (filterData now r data)
  /\ filterData now' r (filterData now r data) = filterData now' r data.
Proof.
  intros Hle. unfold filterData. split.
  - intros x Hx. apply filter_In in Hx. destruct Hx as [Hin Hx].
    apply filter_In. split; [exact Hin |].
    apply (in_range_earlier now now' r x Hle Hx).
  - rewrite filter_swap. apply filter_absorbs.
    intros x. apply (in_range_earlier now now' r x Hle).
Qed.

Lemma filterData_later_witness :
  3600000 <= 3700000
  /\ filterData 3600000 range_1hour [reading_at 0 20 50; reading_at 200000 21 51]
     = [reading_at 0 20 50; reading_at 200000 21 51]
  /\ filterData 3700000 range_1hour [reading_at 0 20 50; reading_at 200000 21 51]
     = [reading_at 200000 21 51]
  /\ incl (filterData 3700000 range_1hour
             [reading_at 0 20 50; reading_at 200000 21 51])
          (filterData 3600000 range_1hour
             [reading_at 0 20 50; reading_at 200000 21 51]).
Proof.
  split; [lia | split; [reflexivity | split; [reflexivity |]]].
  apply (filterData_later 3600000 3700000 range_1hour
           [reading_at 0 20 50; reading_at 200000 21 51]).
  lia.
Defined.

Lemma chronological_from_weaken (t t' : Z)
  (l : list TemperatureHumidityData) :
  t <= t' -> chronological_from t' l -> chronological_from t l.
Proof.
  intros Hle H. destruct H as [|t1 t2 r l Et Hle' Hl].
  - constructor.
  - apply (chronological_cons t t2 r l Et); [lia | exact Hl].
Qed.

Lemma chronological_from_all (t : Z) (l : list TemperatureHumidityData) :
  chronological_from t l ->
  forall r, In r l -> exists t', getTime (originalDate r) = Some t' /\ t <= t'.
Proof.
  induction 1 as [|t t' r l Et Hle Hl IH]; intros x Hx.
  - contradiction.
  - destruct Hx as [<-|Hx].
    + exists t'. split; assumption.
    + destruct (IH x Hx) as (tx & Ex & Hx'). exists tx. split; [exact Ex | lia].
Qed.

Lemma filter_all {A : Type} (f : A -> bool) (l : list A) :
  (forall x, In x l -> f x = true) -> filter f l = l.
Proof.
  intros H. induction l as [|x l IH]; simpl; [reflexivity |].
  rewrite (H x (or_introl eq_refl)), IH; [reflexivity |].
  intros y Hy. apply H. right. exact Hy.
Qed.

(** X8. On a source in chronological order (valid dates, none earlier
    than its predecessor) the filter keeps a suffix: it drops some
    number of the oldest readings and keeps all the later ones. *)
Theorem filterData_suffix (now : Z) (r : TimeRange)
  (data : list TemperatureHumidityData) :
  chronological data ->
  exists k, (k <= List.length data)%nat
            /\ filterData now r data = skipn k data.
Proof.
  intros [t0 H]. unfold filterData.
  induction H as [|t t' x l Et Hle Hl IH].
  - exists 0%nat. split; [simpl; lia | reflexivity].
  - cbn [filter]. destruct (in_range now r x) eqn:Ex.
    + exists 0%nat. split; [simpl; lia |]. cbn [skipn]. f_equal.
      apply filter_all. intros y Hy.
      destruct (chronological_from_all t' l Hl y Hy) as (ty & Ey & Hty).
      destruct (window_ms r) as [ms|] eqn:Er.
      * apply (FilterFacts.in_range_bounded now r ms y Er).
        apply (FilterFacts.in_range_bounded now r ms x Er) in Ex.
        destruct Ex as (tx & Etx & Hx). exists ty. split; [exact Ey |].
        assert (tx = t') by congruence. lia.
      * destruct r; simpl in Er; try discriminate. reflexivity.
    + destruct IH as (k & Hk & E).
      exists (S k). split; [simpl; lia | exact E].
Qed.

Lemma filterData_suffix_witness :
  chronological [reading_at 0 20 50; reading_at 50000000 21 51;
                 reading_at 86000000 22 52]
  /\ filterData 86400000 range_24hours
       [reading_at 0 20 50; reading_at 50000000 21 51;
        reading_at 86000000 22 52]
     = skipn 0 [reading_at 0 20 50; reading_at 50000000 21 51;
                reading_at 86000000 22 52]
  /\ filterData 86400000 range_6hours
       [reading_at 0 20 50; reading_at 50000000 21 51;
        reading_at 86000000 22 52]
     = skipn 2 [reading_at 0 20 50; reading_at 50000000 21 51;
                reading_at 86000000 22 52]
  /\ exists k, filterData 86400000 range_1hour
                 [reading_at 0 20 50; reading_at 50000000 21 51;
                  reading_at 86000000 22 52]
               = skipn k [reading_at 0 20 50; reading_at 50000000 21 51;
                          reading_at 86000000 22 52].
Proof.
  assert (H : chronological
                [reading_at 0 20 50; reading_at 50000000 21 51;
                 reading_at 86000000 22 52]).
  { exists 0.
    apply chronological_cons with (t' := 0); [reflexivity | lia |].
    apply chronological_cons with (t' := 50000000); [reflexivity | lia |].
    apply chronological_cons with (t' := 86000000); [reflexivity | lia |].
    constructor. }
  split; [exact H | split; [reflexivity | split; [reflexivity |]]].
  destruct (filterData_suffix 86400000 range_1hour _ H) as (k & _ & E).
  exists k. exact E.
Defined.

Lemma last_item_filter_snoc (f : TemperatureHumidityData -> bool)
  (d : list TemperatureHumidityData) (x : TemperatureHumidityData) :
  filter f (d ++ [x]) = if f x then (filter f d ++ [x])%list else filter f d.
Proof.
  rewrite filter_app. simpl. destruct (f x); [reflexivity |].
  apply app_nil_r.
Qed.

(** X9. The summary cards and the "last updated" line follow the
    newest reading that is within the window: when the last reading of
    the source passes the filter they show it, whatever precedes it;
    when it does not, they show what they would show without it. *)
Theorem cards_show_newest_in_window (h : host) (now : Z) (r : TimeRange)
  (d : list TemperatureHumidityData) (x : TemperatureHumidityData) :
  (in_range now r x = true ->
   last_item (filterData now r (d ++ [x])) = Some x
   /\ getLatestReadings h (filterData now r (d ++ [x]))
      = getLatestReadings h [x]
   /\ lastUpdated (filterData now r (d ++ [x])) = lastUpdated [x])
  /\ (in_range now r x = false ->
      getLatestReadings h (filterData now r (d ++ [x]))
      = getLatestReadings h (filterData now r d)
      /\ lastUpdated (filterData now r (d ++ [x]))
         = lastUpdated (filterData now r d)).
Proof.
  unfold filterData. rewrite last_item_filter_snoc. split; intros E; rewrite E.
  - split; [apply SummaryFacts.last_item_snoc | split].
    + rewrite SummaryFacts.getLatestReadings_snoc.
      change [x] with ([] ++ [x])%list.
      rewrite SummaryFacts.getLatestReadings_snoc. reflexivity.
    + unfold lastUpdated. rewrite SummaryFacts.last_item_snoc. reflexivity.
  - split; reflexivity.
Qed.

Lemma cards_show_newest_in_window_witness :
  in_range 7200000 range_1hour (reading_at 7000000 21.5 48.25) = true
  /\ getLatestReadings bare_host
       (filterData 7200000 range_1hour
          ([reading_at 0 20 50; reading_at 10 30 60]
           ++ [reading_at 7000000 21.5 48.25]))
     = Normal {| temp := "21.5"; humid := "48.3" |}
  /\ in_range 7200000 range_1hour (reading_at 10 30 60) = false
  /\ lastUpdated (filterData 7200000 range_1hour
                    ([reading_at 7000000 21.5 48.25]
                     ++ [reading_at 10 30 60]))
     = "1/1 1:56".
Proof.
  split; [reflexivity | split; [| split; [reflexivity |]]].
  - destruct (proj1 (cards_show_newest_in_window bare_host 7200000
                       range_1hour [reading_at 0 20 50; reading_at 10 30 60]
                       (reading_at 7000000 21.5 48.25)) eq_refl)
      as (_ & E & _).
    rewrite E. reflexivity.
  - destruct (proj2 (cards_show_newest_in_window bare_host 7200000
                       range_1hour [reading_at 7000000 21.5 48.25]
                       (reading_at 10 30 60)) eq_refl) as (_ & E).
    rewrite E. reflexivity.
Defined.

End WindowFacts.

(** ** The cards and the tables *)

Module ViewFacts.

Import Js JsDate Dashboard Spec Props View.

Lemma last_item_Some (fd : list TemperatureHumidityData)
  (latest : TemperatureHumidityData) :
  last_item fd = Some latest -> (List.length fd =? 0)%nat = false.
Proof.
  intros E. apply Nat.eqb_neq. intros H0.
  unfold last_item in E. rewrite H0 in E.
  destruct fd; [discriminate | discriminate].
Qed.

Lemma last_item_None (fd : list TemperatureHumidityData) :
  last_item fd = None -> fd = [].
Proof.
  intros E. destruct fd as [|x l]; [reflexivity |]. exfalso.
  unfold last_item in E. apply nth_error_None in E. simpl in E. lia.
Qed.

Lemma call_toFixed_number (h : host) (v : value) :
  (exists x, v = Num x) -> exists s, call_toFixed h v 1 = Normal s.
Proof.
  intros [x ->]. simpl.
  destruct (NumberFacts.toFixed_one_decimal_place h x) as (s & E & _).
  exists s. exact E.
Qed.

Lemma call_toFixed_other (h : host) (v : value) :
  ~ (exists x, v = Num x) -> call_toFixed h v 1 = Throw TypeError.
Proof.
  intros H. destruct v; try reflexivity. exfalso. apply H. eexists.
  reflexivity.
Qed.

Lemma number_dec (v : value) : {exists x, v = Num x} + {~ exists x, v = Num x}.
Proof.
  destruct v; try (right; intros [x E]; discriminate).
  left. eexists. reflexivity.
Qed.

(** X10. [getLatestReadings] throws exactly when the filtered list is
    not empty and the temperature or the humidity of its last element
    is not a number, and then it throws a [TypeError]; the elements
    before the last never matter. *)
Theorem getLatestReadings_throws_iff (h : host)
  (fd : list TemperatureHumidityData) :
  ((exists e, getLatestReadings h fd = Throw e)
   <-> (exists latest, last_item fd = Some latest /\ ~ numeric latest))
  /\ (forall e, getLatestReadings h fd = Throw e -> e = TypeError).
Proof.
  unfold getLatestReadings.
  destruct (last_item fd) as [latest|] eqn:El.
  - rewrite (last_item_Some fd latest El).
    destruct (number_dec (temperature latest)) as [Ht|Ht].
    + destruct (call_toFixed_number h _ Ht) as [st ->]. cbn [bind].
      destruct (number_dec (humidity latest)) as [Hu|Hu].
      * destruct (call_toFixed_number h _ Hu) as [su ->]. cbn [bind].
        split; [split |]; [intros [e E]; discriminate | | discriminate].
        intros (l & [= <-] & Hn). exfalso. apply Hn. split; assumption.
      * rewrite (call_toFixed_other h _ Hu). cbn [bind].
        split; [split |].
        -- intros _. exists latest. split; [reflexivity |].
           intros [_ Hu']. contradiction.
        -- intros _. eexists. reflexivity.
        -- intros e [= <-]. reflexivity.
    + rewrite (call_toFixed_other h _ Ht). cbn [bind].
      split; [split |].
      * intros _. exists latest. split; [reflexivity |].
        intros [Ht' _]. contradiction.
      * intros _. eexists. reflexivity.
      * intros e [= <-]. reflexivity.
  - rewrite (last_item_None fd El). cbn.
    split; [split |]; [intros [e E]; discriminate | | discriminate].
    intros (l & E & _). discriminate.
Qed.

Lemma getLatestReadings_throws_iff_witness :
  (exists latest,
      last_item [reading_at 0 20 50;
                 reading_with 60000 (Str "21.5") Undefined] = Some latest
      /\ ~ numeric latest)
  /\ getLatestReadings bare_host
       [reading_at 0 20 50; reading_with 60000 (Str "21.5") Undefined]
     = Throw TypeError.
Proof.
  assert (H : exists latest,
             last_item [reading_at 0 20 50;
                        reading_with 60000 (Str "21.5") Undefined]
             = Some latest /\ ~ numeric latest).
  { eexists. split; [reflexivity |]. intros [[t Ht] _]. discriminate. }
  split; [exact H |].
  destruct (proj2 (proj1 (getLatestReadings_throws_iff bare_host
              [reading_at 0 20 50;
               reading_with 60000 (Str "21.5") Undefined])) H) as [e E].
  rewrite E. f_equal.
  apply (proj2 (getLatestReadings_throws_iff bare_host
                  [reading_at 0 20 50;
                   reading_with 60000 (Str "21.5") Undefined]) e E).
Defined.

Lemma label_is_not_placeholder (h : host) (d : Date) :
  formattedTime h d <> "" /\ formattedTime h d <> "--".
Proof.
  unfold formattedTime.
  set (a := field_string (succ_field (getMonth h d))).
  set (b := (field_string (getDate h d) ++ " "
             ++ field_string (getHours h d) ++ ":"
             ++ padStart2 (field_string (getMinutes h d)))%string).
  destruct a as [|c1 [|c2 [|c3 a]]]; simpl; split; discriminate.
Qed.

Lemma formattedData_labels (v : variant) (h : host) (json : value)
  (fd : list TemperatureHumidityData) :
  formattedData v h json = Normal fd ->
  forall r, In r fd -> timestamp r = formattedTime h (originalDate r).
Proof.
  intros E. destruct json; try discriminate.
  destruct (BodyFacts.formattedData_pointwise v h items fd E) as (_ & F & _).
  clear E. induction F as [|item r items fd Hr _ IH]; intros x Hx.
  - contradiction.
  - destruct Hx as [<-|Hx]; [| apply IH; exact Hx].
    apply (LabelFacts.formatItem_label v h item r Hr).
Qed.

(** X11. For readings that [fetchData] built, the "last updated" line
    never throws, is ['--'] exactly when the filtered list is empty,
    which is also when [getLatestReadings] gives its placeholders for
    an empty list, and is otherwise the label of the last filtered
    reading. *)
Theorem lastUpdated_placeholder (v : variant) (h : host) (json : value)
  (fd : list TemperatureHumidityData) (now : Z) (r : TimeRange) :
  formattedData v h json = Normal fd ->
  (lastUpdated (filterData now r fd) = "--" <-> filterData now r fd = [])
  /\ (filterData now r fd = [] ->
      getLatestReadings h (filterData now r fd)
      = Normal {| temp := "--"; humid := "--" |})
  /\ (forall latest, last_item (filterData now r fd) = Some latest ->
        lastUpdated (filterData now r fd) = timestamp latest).
Proof.
  intros E.
  assert (L : forall latest, last_item (filterData now r fd) = Some latest ->
              timestamp latest <> "" /\ timestamp latest <> "--").
  { intros latest El.
    assert (Hin : In latest fd).
    { apply nth_error_In in El. unfold filterData in El.
      apply filter_In in El. apply El. }
    rewrite (formattedData_labels v h json fd E latest Hin).
    apply label_is_not_placeholder. }
  split; [split | split].
  - intros Hl. unfold lastUpdated in Hl.
    destruct (last_item (filterData now r fd)) as [latest|] eqn:El.
    + destruct (L latest eq_refl) as [Hne Hnp].
      destruct (timestamp latest); [contradiction | contradiction].
    + apply last_item_None. exact El.
  - intros ->. reflexivity.
  - intros ->. reflexivity.
  - intros latest El. unfold lastUpdated. rewrite El.
    destruct (L latest El) as [Hne _].
    destruct (timestamp latest); [contradiction | reflexivity].
Qed.

Lemma lastUpdated_placeholder_witness :
  formattedData Sensors bare_host
    (Arr [Obj [("time", Num 0); ("temperature", Num 20);
               ("humidity", Num 50)]])
  = Normal [reading_at 0 20 50]
  /\ lastUpdated (filterData 7200000 range_1hour [reading_at 0 20 50]) = "--"
  /\ lastUpdated (filterData 7200000 range_all [reading_at 0 20 50])
     = "1/1 0:00".
Proof.
  split; [reflexivity |].
  destruct (lastUpdated_placeholder Sensors bare_host
              (Arr [Obj [("time", Num 0); ("temperature", Num 20);
                         ("humidity", Num 50)]])
              [reading_at 0 20 50] 7200000 range_1hour eq_refl)
    as ([_ H] & _).
  split; [apply H; reflexivity | reflexivity].
Defined.

(** X12. The table of the [Plain] variant shows the last five filtered
    readings, or all of them when there are fewer: the rows are a
    suffix of the filtered list, as many as the smaller of 5 and its
    length, and the last row is the reading the cards show.  The
    [Sensors] table shows the whole filtered list. *)
Theorem shown_rows (fd : list TemperatureHumidityData) :
  List.length (shown Plain fd) = Nat.min 5 (List.length fd)
  /\ (exists older, fd = (older ++ shown Plain fd)%list)
  /\ last_item (shown Plain fd) = last_item fd
  /\ shown Sensors fd = fd.
Proof.
  unfold shown, slice_last.
  split; [| split; [| split; [| reflexivity]]].
  - rewrite length_skipn. lia.
  - exists (firstn (List.length fd - 5) fd). symmetry. apply firstn_skipn.
  - unfold last_item. rewrite nth_error_skipn, length_skipn.
    destruct (Nat.eq_dec (List.length fd) 0) as [E0|Hn].
    + destruct fd; [reflexivity | discriminate].
    + f_equal. lia.
Qed.

Lemma shown_rows_witness :
  shown Plain [reading_at 0 20 50; reading_at 1 21 51; reading_at 2 22 52;
               reading_at 3 23 53; reading_at 4 24 54; reading_at 5 25 55;
               reading_at 6 26 56]
  = [reading_at 2 22 52; reading_at 3 23 53; reading_at 4 24 54;
     reading_at 5 25 55; reading_at 6 26 56]
  /\ shown Plain [reading_at 0 20 50; reading_at 1 21 51]
     = [reading_at 0 20 50; reading_at 1 21 51]
  /\ last_item (shown Plain [reading_at 0 20 50; reading_at 1 21 51])
     = last_item [reading_at 0 20 50; reading_at 1 21 51].
Proof.
  split; [reflexivity | split; [reflexivity |]].
  apply (shown_rows [reading_at 0 20 50; reading_at 1 21 51]).
Defined.

Lemma temperature_row_numeric (h : host) (item : TemperatureHumidityData) :
  ((exists rw, temperature_row h item = Normal rw) <-> numeric item)
  /\ (forall rw, temperature_row h item = Normal rw ->
                 cell_time rw = timestamp item).
Proof.
  unfold temperature_row, numeric.
  destruct (number_dec (temperature item)) as [Ht|Ht].
  - destruct (call_toFixed_number h _ Ht) as [st ->]. cbn [bind].
    destruct (number_dec (humidity item)) as [Hu|Hu].
    + destruct (call_toFixed_number h _ Hu) as [su ->]. cbn [bind].
      split; [split; [auto | eexists; reflexivity] |].
      intros rw [= <-]. reflexivity.
    + rewrite (call_toFixed_other h _ Hu). cbn [bind].
      split; [split |]; [intros [rw E]; discriminate | | discriminate].
      intros [_ Hu']. contradiction.
  - rewrite (call_toFixed_other h _ Ht). cbn [bind].
    split; [split |]; [intros [rw E]; discriminate | | discriminate].
    intros [Ht' _]. contradiction.
Qed.

Lemma traverse_rows (h : host) (l : list TemperatureHumidityData) :
  ((exists rows, traverse (temperature_row h) l = Normal rows)
   <-> Forall numeric l)
  /\ (forall rows, traverse (temperature_row h) l = Normal rows ->
        map cell_time rows = map timestamp l).
Proof.
  induction l as [|x l [IH1 IH2]]; cbn [traverse].
  - split; [split; [constructor | eexists; reflexivity] |].
    intros rows [= <-]. reflexivity.
  - destruct (temperature_row_numeric h x) as [Hx1 Hx2].
    destruct (temperature_row h x) as [rw|e] eqn:Ex; cbn [bind].
    + destruct (traverse (temperature_row h) l) as [rows|e] eqn:El; cbn [bind].
      * split.
        -- split; [| eexists; reflexivity].
           intros _. constructor.
           ++ apply Hx1. eexists. reflexivity.
           ++ apply IH1. eexists. reflexivity.
        -- intros rs [= <-]. simpl. f_equal.
           ++ apply Hx2. reflexivity.
           ++ apply IH2. reflexivity.
      * split; [split |]; [intros [rs E]; discriminate | | discriminate].
        intros F. inversion F as [|? ? _ Fl]; subst.
        apply IH1 in Fl. destruct Fl as [rs E]. discriminate.
    + split; [split |]; [intros [rs E]; discriminate | | discriminate].
      intros F. inversion F as [|? ? Fx _]; subst.
      apply Hx1 in Fx. destruct Fx as [rw E]. discriminate.
Qed.

(** X13. The temperature and humidity table renders without throwing
    exactly when every reading it shows holds a number for its
    temperature and for its humidity; it then has one row for each
    shown reading, in order, under that reading's label.  In the
    [Plain] variant a reading older than the last five is not shown and
    so cannot make the table throw. *)
Theorem temperature_table_renders (v : variant) (h : host)
  (fd : list TemperatureHumidityData) :
  ((exists rows, temperature_table v h fd = Normal rows)
   <-> Forall numeric (shown v fd))
  /\ (forall rows, temperature_table v h fd = Normal rows ->
        List.length rows = List.length (shown v fd)
        /\ map cell_time rows = map timestamp (shown v fd)).
Proof.
  unfold temperature_table.
  destruct (traverse_rows h (shown v fd)) as [H1 H2].
  split; [exact H1 |].
  intros rows E. pose proof (H2 rows E) as Hm.
  split; [| exact Hm].
  rewrite <- (length_map cell_time rows), Hm. apply length_map.
Qed.

Lemma temperature_table_renders_witness :
  Forall numeric
    (shown Plain
       [reading_with 0 (Str "hot") Undefined;
        reading_at 1 21 51; reading_at 2 22 52; reading_at 3 23 53;
        reading_at 4 24 54; reading_at 5 25 55])
  /\ (exists rows,
        temperature_table Plain bare_host
          [reading_with 0 (Str "hot") Undefined;
           reading_at 1 21 51; reading_at 2 22 52; reading_at 3 23 53;
           reading_at 4 24 54; reading_at 5 25 55] = Normal rows)
  /\ temperature_table Sensors bare_host
       [reading_with 0 (Str "hot") Undefined;
        reading_at 1 21 51; reading_at 2 22 52; reading_at 3 23 53;
        reading_at 4 24 54; reading_at 5 25 55] = Throw TypeError.
Proof.
  assert (H : Forall numeric
                (shown Plain
                   [reading_with 0 (Str "hot") Undefined;
                    reading_at 1 21 51; reading_at 2 22 52;
                    reading_at 3 23 53; reading_at 4 24 54;
                    reading_at 5 25 55])).
  { repeat constructor; eexists; reflexivity. }
  split; [exact H | split; [| reflexivity]].
  apply (proj2 (proj1 (temperature_table_renders Plain bare_host
           [reading_with 0 (Str "hot") Undefined;
            reading_at 1 21 51; reading_at 2 22 52; reading_at 3 23 53;
            reading_at 4 24 54; reading_at 5 25 55]))).
  exact H.
Defined.

End ViewFacts.

(** ** The door and image sensors *)

Module SensorFacts.

Import Js JsDate Dashboard Runtime Spec Props View.

(** X14. The cell of the image table, for a reading that [Sensors]
    built from a record: when the record has no [imageData] (or a falsy
    one) the cell is ["0.0"]; when its [imageData] is an object whose
    [reading] is a number the cell is that number to one decimal place;
    when its [imageData] is any other truthy value, an object without a
    numeric [reading] included, rendering the cell throws a
    [TypeError].  A reading of the [Plain] variant has no [imageData]
    and its cell stays empty. *)
Theorem image_cell_cases (h : host) (item : value)
  (r : TemperatureHumidityData) (i : value) :
  Get item k_imageData = Normal i ->
  (formatItem Sensors h item = Normal r ->
   (ToBoolean i = false -> image_cell h r = Normal (Some "0.0"))
   /\ (ToBoolean i = true ->
       (forall x, reading_of i = Num x ->
          exists s, toFixed h x 1 = Normal s
                    /\ one_decimal_place x s
                    /\ image_cell h r = Normal (Some s))
       /\ ((forall x, reading_of i <> Num x) ->
           image_cell h r = Throw TypeError)))
  /\ (formatItem Plain h item = Normal r -> image_cell h r = Normal None).
Proof.
  intros Ei.
  split; intros E.
  - destruct (ItemFacts.formatItem_inv Sensors h item r E)
      as (_ & time & t & u & d & i' & _ & _ & _ & _ & Ei' & _ & _ & _
          & _ & _ & Him).
    rewrite Ei in Ei'. injection Ei' as <-.
    unfold image_cell. rewrite Him. unfold or.
    split; intros T; rewrite T.
    + reflexivity.
    + split.
      * intros x Hx.
        destruct (NumberFacts.toFixed_one_decimal_place h x) as (s & Es & Ds).
        exists s. split; [exact Es | split; [exact Ds |]].
        destruct i; try discriminate; rewrite Hx; simpl; rewrite Es;
          reflexivity.
      * intros Hn.
        assert (C : call_toFixed h (reading_of i) 1 = Throw TypeError).
        { apply ViewFacts.call_toFixed_other. intros [x Hx].
          apply (Hn x Hx). }
        destruct i; try discriminate; rewrite C; reflexivity.
  - destruct (ItemFacts.formatItem_inv Plain h item r E)
      as (_ & time & t & u & d & i' & _ & _ & _ & _ & _ & _ & _ & _
          & _ & _ & Him).
    unfold image_cell. rewrite Him. reflexivity.
Qed.

Lemma image_cell_cases_witness :
  Get (Obj [("time", Num 0); ("humidity", Num 50);
            ("imageData", Obj [("reading", Num 12.25)])]) k_imageData
  = Normal (Obj [("reading", Num 12.25)])
  /\ image_cell bare_host
       (reading_with 0 (Num 0) (Obj [("reading", Num 12.25)]))
     = Normal (Some "12.3")
  /\ image_cell bare_host (reading_with 0 (Num 0) (Obj [])) = Throw TypeError
  /\ image_cell bare_host (reading_at 0 20 50) = Normal (Some "0.0").
Proof.
  split; [reflexivity | split; [| split; reflexivity]].
  destruct (proj1 (image_cell_cases bare_host
              (Obj [("time", Num 0); ("humidity", Num 50);
                    ("imageData", Obj [("reading", Num 12.25)])])
              (reading_with 0 (Num 0) (Obj [("reading", Num 12.25)]))
              (Obj [("reading", Num 12.25)]) eq_refl))
    as [_ H].
  - vm_compute. reflexivity.
  - destruct (proj1 (H eq_refl) 12.25%float eq_refl) as (s & Es & _ & Ec).
    rewrite Ec. vm_compute in Es. injection Es as <-. reflexivity.
Defined.

Lemma map_items_snoc (f : value -> completion TemperatureHumidityData)
  (pre : list value) (x : value) :
  map_items f (pre ++ [x])
  = bind (map_items f pre) (fun rs =>
    bind (f x) (fun r => Normal (rs ++ [r])%list)).
Proof.
  induction pre as [|p pre IH]; simpl.
  - destruct (f x); reflexivity.
  - destruct (f p) as [rp|e]; simpl; [| reflexivity].
    rewrite IH. destruct (map_items f pre) as [rs|e]; simpl; [| reflexivity].
    destruct (f x); reflexivity.
Qed.

Lemma or_closed_is_open (d : value) :
  is_open (or d (Str "closed")) = true <-> d = Str "open".
Proof.
  split.
  - unfold or. destruct (ToBoolean d) eqn:T.
    + destruct d; simpl; try discriminate.
      intros H. apply String.eqb_eq in H. subst. reflexivity.
    + simpl. discriminate.
  - intros ->. reflexivity.
Qed.

(** X15. In the [Sensors] variant, when a response with at least one
    record arrives on a mounted component, the door state becomes the
    [doorStatus] of the last record of the body, filtered or not, and
    the door card reads "open" exactly when that raw [doorStatus] is the
    string ['open']: a missing one, and any other value, reads
    "closed".  A response with no record leaves the door state as it
    was. *)
Theorem door_follows_last_record (h : host) (w : world) (p : nat) :
  stage w = Mounted ->
  pending w = S p ->
  (forall (pre : list value) (last : value) (d : value)
          (fd : list TemperatureHumidityData),
      formattedData Sensors h (Arr (pre ++ [last])) = Normal fd ->
      Get last k_doorStatus = Normal d ->
      doorStatus (cells (step Sensors h w (Settle (Json (Arr (pre ++ [last]))))))
      = or d (Str "closed")
      /\ (doorLabel (doorStatus (cells (step Sensors h w
                                          (Settle (Json (Arr (pre ++ [last])))))))
          = "開" <-> d = Str "open"))
  /\ doorStatus (cells (step Sensors h w (Settle (Json (Arr [])))))
     = doorStatus (cells w).
Proof.
  intros Hs Hp. split.
  - intros pre last d fd E Ed.
    assert (Hl : exists r, last_item fd = Some r
                           /\ Dashboard.doorStatus r = or d (Str "closed")
                           /\ (0 <? List.length fd)%nat = true).
    { simpl in E. rewrite map_items_snoc in E.
      destruct (map_items (formatItem Sensors h) pre) as [rs|e];
        [| discriminate].
      simpl in E.
      destruct (formatItem Sensors h last) as [r|e] eqn:Er; [| discriminate].
      simpl in E. injection E as <-.
      exists r. split; [apply SummaryFacts.last_item_snoc | split].
      - destruct (ItemFacts.formatItem_inv Sensors h last r Er)
          as (_ & time & t & u & d' & i & _ & _ & _ & Ed' & _ & _ & _
              & _ & _ & Hd & _).
        rewrite Ed in Ed'. injection Ed' as <-. exact Hd.
      - rewrite length_app. simpl. apply Nat.ltb_lt. lia. }
    destruct Hl as (r & Hlast & Hd & Hlen).
    assert (Ef : fetchData Sensors h (Json (Arr (pre ++ [last])))
                 = [setData fd; setDoorStatus (Dashboard.doorStatus r);
                    setLoading false]).
    { unfold fetchData, fetchData_try. rewrite E, Hlen, Hlast. reflexivity. }
    assert (Ec : doorStatus (cells (step Sensors h w
                   (Settle (Json (Arr (pre ++ [last]))))))
                 = or d (Str "closed")).
    { unfold step. rewrite Hp, Ef. unfold is_mounted. rewrite Hs.
      simpl. exact Hd. }
    split; [exact Ec |]. rewrite Ec. unfold doorLabel.
    rewrite <- or_closed_is_open.
    destruct (is_open (or d (Str "closed"))); split;
      try reflexivity; discriminate.
  - unfold step. rewrite Hp. unfold is_mounted. rewrite Hs. reflexivity.
Qed.

Lemma door_follows_last_record_witness :
  stage (run Sensors bare_host (boot 0) [Mount]) = Mounted
  /\ pending (run Sensors bare_host (boot 0) [Mount]) = 1%nat
  /\ doorLabel
       (doorStatus
          (cells (run Sensors bare_host (boot 0)
                    [Mount;
                     Settle (Json (Arr ([Obj [("time", Num 0);
                                              ("doorStatus", Str "closed")]]
                                        ++ [Obj [("time", Num 1);
                                                 ("doorStatus",
                                                  Str "open")]])))])))
     = "開"
  /\ doorLabel
       (doorStatus
          (cells (run Sensors bare_host (boot 0)
                    [Mount;
                     Settle (Json (Arr [Obj [("time", Num 1);
                                             ("doorStatus", Str "OPEN")]]))])))
     = "閉".
Proof.
  split; [reflexivity | split; [reflexivity | split; [| reflexivity]]].
  destruct (proj1 (door_follows_last_record bare_host
              (run Sensors bare_host (boot 0) [Mount]) 0 eq_refl eq_refl)
              [Obj [("time", Num 0); ("doorStatus", Str "closed")]]
              (Obj [("time", Num 1); ("doorStatus", Str "open")])
              (Str "open") _ eq_refl eq_refl) as [_ H].
  apply H. reflexivity.
Defined.

End SensorFacts.

(** ** The state over the life of the component *)

Module LifeFacts.

Import Js JsDate Dashboard Runtime Spec Props View.

(** The three shapes of what [fetchData] calls. *)
Lemma fetchData_cases (v : variant) (h : host) (r : response) :
  (fails v h r
   /\ fetchData v h r = [setError fetch_failed; setLoading false])
  \/ (exists json fd,
        r = Json json /\ formattedData v h json = Normal fd
        /\ (fetchData v h r = [setData fd; setLoading false]
            \/ exists l,
                 v = Sensors /\ last_item fd = Some l
                 /\ fetchData v h r
                    = [setData fd; setDoorStatus (Dashboard.doorStatus l);
                       setLoading false])).
Proof.
  destruct r as [| |json].
  - left. split; [exact I | reflexivity].
  - left. split; [exact I | reflexivity].
  - destruct (formattedData v h json) as [fd|e] eqn:E.
    + right. exists json, fd. split; [reflexivity | split; [exact E |]].
      unfold fetchData, fetchData_try. rewrite E.
      destruct v; [left; reflexivity |].
      destruct (0 <? List.length fd)%nat eqn:L; [| left; reflexivity].
      destruct (FetchFacts.last_item_nonempty fd L) as [l El].
      right. exists l. rewrite El. repeat split.
    + left. split; [exists e; exact E |].
      unfold fetchData, fetchData_try. rewrite E. reflexivity.
Qed.

Lemma fails_not_Normal (v : variant) (h : host) (json : value)
  (fd : list TemperatureHumidityData) :
  formattedData v h json = Normal fd -> ~ fails v h (Json json).
Proof. intros E [e E']. congruence. Qed.

(** X16. On every path [fetchData] ends by calling
    [setLoading(false)], once, and never calls [setLoading(true)];
    before that it calls exactly one of [setError] (a request that
    failed, and then nothing else) and [setData] (a request that did
    not fail, and then at most [setDoorStatus]). *)
Theorem fetchData_call_shape (v : variant) (h : host) (r : response) :
  exists before,
    fetchData v h r = (before ++ [setLoading false])%list
    /\ (forall b, ~ In (setLoading b) before)
    /\ ((fails v h r /\ before = [setError fetch_failed])
        \/ (~ fails v h r
            /\ exists fd rest,
                 before = setData fd :: rest
                 /\ (forall m, ~ In (setError m) rest)
                 /\ (forall d, ~ In (setData d) rest))).
Proof.
  destruct (fetchData_cases v h r)
    as [[F E]|(json & fd & -> & Efd & [E|(l & _ & _ & E)])].
  - exists [setError fetch_failed]. split; [exact E | split].
    + intros b [H|[]]. discriminate.
    + left. split; [exact F | reflexivity].
  - exists [setData fd]. split; [exact E | split].
    + intros b [H|[]]. discriminate.
    + right. split; [apply (fails_not_Normal v h json fd Efd) |].
      exists fd, []. repeat split; intros ? [].
  - exists [setData fd; setDoorStatus (Dashboard.doorStatus l)].
    split; [exact E | split].
    + intros b [H|[H|[]]]; discriminate.
    + right. split; [apply (fails_not_Normal v h json fd Efd) |].
      exists fd, [setDoorStatus (Dashboard.doorStatus l)].
      repeat split; intros ? [H|[]]; discriminate.
Qed.

Lemma fetchData_call_shape_witness :
  fetchData Sensors bare_host
    (Json (Arr [Obj [("time", Num 0); ("doorStatus", Str "open")]]))
  = ([setData [{| timestamp := "1/1 0:00";
                  temperature := Num 0;
                  humidity := Num 0;
                  originalDate := mkDate (Some 0);
                  Dashboard.doorStatus := Str "open";
                  imageData := Obj [("reading", Num 0)] |}];
      setDoorStatus (Str "open")] ++ [setLoading false])%list
  /\ exists before,
       fetchData Plain bare_host Unparsable
       = (before ++ [setLoading false])%list.
Proof.
  split; [reflexivity |].
  destruct (fetchData_call_shape Plain bare_host Unparsable)
    as (before & E & _).
  exists before. exact E.
Defined.

(** What one event does to the state cells. *)
Lemma step_cells (v : variant) (h : host) (w : world) (e : event) :
  clock w <= clock (step v h w e)
  /\ ((cells (step v h w e) = cells w
       /\ (stage (step v h w e) = Fresh -> stage w = Fresh))
      \/ (stage w = Fresh /\ stage (step v h w e) = Mounted
          /\ clock (step v h w e) = clock w
          /\ cells (step v h w e) = initial)
      \/ (stage w = Mounted /\ stage (step v h w e) = Mounted
          /\ clock (step v h w e) = clock w
          /\ ((exists r, e = Settle r /\ fails v h r
                 /\ loading (cells (step v h w e)) = false
                 /\ error (cells (step v h w e)) = Some fetch_failed
                 /\ data (cells (step v h w e)) = data (cells w)
                 /\ filteredData (cells (step v h w e))
                    = filteredData (cells w)
                 /\ timeRange (cells (step v h w e)) = timeRange (cells w)
                 /\ doorStatus (cells (step v h w e))
                    = doorStatus (cells w))
              \/ (exists json fd,
                    e = Settle (Json json)
                    /\ formattedData v h json = Normal fd
                    /\ loading (cells (step v h w e)) = false
                    /\ error (cells (step v h w e)) = error (cells w)
                    /\ data (cells (step v h w e)) = fd
                    /\ filteredData (cells (step v h w e))
                       = filterData (clock w) (timeRange (cells w)) fd
                    /\ timeRange (cells (step v h w e))
                       = timeRange (cells w))
              \/ (exists r, e = Select r
                    /\ loading (cells (step v h w e)) = loading (cells w)
                    /\ error (cells (step v h w e)) = error (cells w)
                    /\ data (cells (step v h w e)) = data (cells w)
                    /\ filteredData (cells (step v h w e))
                       = filterData (clock w) r (data (cells w))
                    /\ timeRange (cells (step v h w e)) = r
                    /\ doorStatus (cells (step v h w e))
                       = doorStatus (cells w))))).
Proof.
  destruct e as [| |dt|r|r]; unfold step.
  - destruct (stage w) eqn:Es; cbn [clock cells stage].
    + split; [lia |]. right. left. repeat split.
    + split; [lia |]. left. split; [reflexivity | congruence].
    + split; [lia |]. left. split; [reflexivity | congruence].
  - destruct (stage w) eqn:Es; cbn [clock cells stage];
      (split; [lia |]); left; (split; [reflexivity | congruence]).
  - destruct (timer w); cbn [clock cells stage];
      (split; [lia |]); left; (split; [reflexivity | auto]).
  - destruct (pending w) as [|p].
    { split; [lia |]. left. split; [reflexivity | auto]. }
    unfold is_mounted. destruct (stage w) eqn:Es; cbn [clock cells stage];
      (split; [lia |]);
      try (left; split; [reflexivity | congruence]).
    right. right. repeat split.
    destruct (fetchData_cases v h r)
      as [[F E]|(json & fd & -> & Efd & [E|(l & _ & _ & E)])];
      rewrite E; cbn.
    + left. exists r. repeat split. exact F.
    + right. left. exists json, fd. repeat split. exact Efd.
    + right. left. exists json, fd. repeat split. exact Efd.
  - unfold is_mounted. destruct (stage w) eqn:Es; cbn [andb];
      try (split; [lia |]; left; split; [reflexivity | congruence]).
    destruct (negb (TimeRange_eqb r (timeRange (cells w))));
      cbn [clock cells stage]; (split; [lia |]).
    + right. right. repeat split. right. right. exists r. repeat split.
    + left. split; [reflexivity | congruence].
Qed.

Lemma run_snoc (v : variant) (h : host) (w : world) (evs : list event)
  (e : event) :
  run v h w (evs ++ [e]) = step v h (run v h w evs) e.
Proof. rewrite RuntimeFacts.run_app. reflexivity. Qed.

(** Induction over the worlds a component reaches. *)
Lemma reachable_ind (v : variant) (h : host) (t0 : Z) (P : world -> Prop) :
  P (boot t0) ->
  (forall w e, reachable v h t0 w -> P w -> P (step v h w e)) ->
  forall w, reachable v h t0 w -> P w.
Proof.
  intros H0 Hstep w [evs ->].
  induction evs as [|e evs IH] using rev_ind.
  - exact H0.
  - rewrite run_snoc. apply Hstep; [exists evs; reflexivity | exact IH].
Qed.

Lemma reachable_run (v : variant) (h : host) (t0 : Z) (w : world)
  (evs : list event) :
  reachable v h t0 w -> reachable v h t0 (run v h w evs).
Proof.
  intros [evs0 ->]. exists (evs0 ++ evs)%list.
  symmetry. apply RuntimeFacts.run_app.
Qed.

(** What holds of the cells in every world reached. *)
Lemma cells_sound (v : variant) (h : host) (t0 : Z) (w : world) :
  reachable v h t0 w ->
  (stage w = Fresh -> cells w = initial)
  /\ (loading (cells w) = true ->
      data (cells w) = [] /\ filteredData (cells w) = []
      /\ error (cells w) = None /\ doorStatus (cells w) = Str "closed")
  /\ (forall m, error (cells w) = Some m ->
                m = fetch_failed /\ loading (cells w) = false)
  /\ (exists t, t0 <= t <= clock w
                /\ filteredData (cells w)
                   = filterData t (timeRange (cells w)) (data (cells w))).
Proof.
  revert w. apply reachable_ind.
  - repeat split; try reflexivity; try discriminate.
    exists t0. split; [simpl; lia | reflexivity].
  - intros w e _ (Hfresh & Hload & Herr & (t & Ht & Hfilt)).
    destruct (step_cells v h w e) as [Hclock Hcases].
    destruct Hcases as [[Ec Hst]|[(Hs & Hs' & Hc & Ec)|(Hs & Hs' & Hc & Hcases)]].
    + rewrite Ec. repeat split; try (apply Hload; assumption);
        try (apply (Herr m); assumption).
      * intros F. apply Hfresh. apply Hst. exact F.
      * exists t. split; [lia | exact Hfilt].
    + rewrite Ec. repeat split; try reflexivity; try discriminate.
      exists (clock w). split; [lia | reflexivity].
    + destruct Hcases as [(r & _ & _ & El & Ee & Ed & Ef & Et & Eds)
                         |[(json & fd & _ & _ & El & Ee & Ed & Ef & Et)
                          |(r & _ & El & Ee & Ed & Ef & Et & Eds)]].
      * split; [intros F; congruence | split; [intros L; congruence |]].
        split.
        -- intros m Hm. rewrite Ee in Hm. injection Hm as <-.
           split; [reflexivity | exact El].
        -- exists t. split; [lia |]. rewrite Ef, Et, Ed. exact Hfilt.
      * split; [intros F; congruence | split; [intros L; congruence |]].
        split.
        -- intros m Hm. rewrite Ee in Hm.
           split; [apply (Herr m Hm) | exact El].
        -- exists (clock w). split; [lia |]. rewrite Ef, Et, Ed. reflexivity.
      * split; [intros F; congruence |]. split; [| split].
        -- intros L. rewrite El in L.
           destruct (Hload L) as (D & _ & E' & Ds).
           rewrite Ed, Ef, Ee, Eds, D. repeat split; assumption.
        -- intros m Hm. rewrite Ee in Hm. rewrite El. apply (Herr m Hm).
        -- exists (clock w). split; [lia |]. rewrite Ef, Et, Ed. reflexivity.
Qed.

(** X17. A response that normalises, arriving on a mounted component,
    replaces [data] wholesale by its readings (nothing of the old
    sequence is kept or merged), refilters them at the time of arrival
    under the selected window, and ends the loading state; it does not
    clear an error that an earlier request left. *)
Theorem settle_replaces_data (v : variant) (h : host) (w : world) (p : nat)
  (json : value) (fd : list TemperatureHumidityData) :
  stage w = Mounted ->
  pending w = S p ->
  formattedData v h json = Normal fd ->
  data (cells (step v h w (Settle (Json json)))) = fd
  /\ filteredData (cells (step v h w (Settle (Json json))))
     = filterData (clock w) (timeRange (cells w)) fd
  /\ loading (cells (step v h w (Settle (Json json)))) = false
  /\ error (cells (step v h w (Settle (Json json)))) = error (cells w)
  /\ pending (step v h w (Settle (Json json))) = p.
Proof.
  intros Hs Hp E. unfold step. rewrite Hp. unfold is_mounted. rewrite Hs.
  destruct (fetchData_cases v h (Json json))
    as [[[e F] _]|(json' & fd' & [= <-] & Efd & [Ef|(l & _ & _ & Ef)])].
  - congruence.
  - rewrite Ef. assert (fd' = fd) as -> by congruence. repeat split.
  - rewrite Ef. assert (fd' = fd) as -> by congruence. repeat split.
Qed.

Lemma settle_replaces_data_witness :
  stage (run Sensors bare_host (boot 0)
           [Mount; Settle Rejected; Advance 5000]) = Mounted
  /\ pending (run Sensors bare_host (boot 0)
                [Mount; Settle Rejected; Advance 5000]) = 1%nat
  /\ formattedData Sensors bare_host
       (Arr [Obj [("time", Num 0); ("temperature", Num 20);
                  ("humidity", Num 50)]])
     = Normal [reading_at 0 20 50]
  /\ data (cells (run Sensors bare_host (boot 0)
                    [Mount; Settle Rejected; Advance 5000;
                     Settle (Json (Arr [Obj [("time", Num 0);
                                             ("temperature", Num 20);
                                             ("humidity", Num 50)]]))]))
     = [reading_at 0 20 50]
  /\ error (cells (run Sensors bare_host (boot 0)
                     [Mount; Settle Rejected; Advance 5000;
                      Settle (Json (Arr [Obj [("time", Num 0);
                                              ("temperature", Num 20);
                                              ("humidity", Num 50)]]))]))
     = Some fetch_failed.
Proof.
  split; [reflexivity | split; [reflexivity | split; [reflexivity |]]].
  destruct (settle_replaces_data Sensors bare_host
              (run Sensors bare_host (boot 0)
                 [Mount; Settle Rejected; Advance 5000]) 0
              (Arr [Obj [("time", Num 0); ("temperature", Num 20);
                         ("humidity", Num 50)]])
              [reading_at 0 20 50] eq_refl eq_refl eq_refl)
    as (D & _ & _ & Er & _).
  split; [exact D | exact Er].
Defined.

Lemma settled_step (v : variant) (h : host) (t0 : Z) (w : world) (e : event) :
  reachable v h t0 w ->
  stage w <> Fresh ->
  stage (step v h w e) <> Fresh
  /\ (forall m, error (cells w) = Some m ->
                error (cells (step v h w e)) = Some m)
  /\ (loading (cells w) = false -> loading (cells (step v h w e)) = false).
Proof.
  intros R Hs.
  destruct (cells_sound v h t0 w R) as (_ & _ & Herr & _).
  destruct (step_cells v h w e) as [_ Hcases].
  destruct Hcases as [[Ec Hst]|[(Hf & _)|(_ & Hs' & _ & Hcases)]].
  - rewrite Ec. repeat split; auto.
  - contradiction.
  - split; [congruence |].
    destruct Hcases as [(r & _ & _ & El & Ee & _)
                       |[(json & fd & _ & _ & El & Ee & _)
                        |(r & _ & El & Ee & _)]].
    + split; [| auto]. intros m Hm.
      destruct (Herr m Hm) as [-> _]. exact Ee.
    + split; [| auto]. intros m Hm. congruence.
    + split; intros; congruence.
Qed.

Lemma settled_run (v : variant) (h : host) (t0 : Z) (evs : list event) :
  forall w,
    reachable v h t0 w ->
    stage w <> Fresh ->
    (forall m, error (cells w) = Some m ->
               error (cells (run v h w evs)) = Some m)
    /\ (loading (cells w) = false ->
        loading (cells (run v h w evs)) = false).
Proof.
  induction evs as [|e evs IH]; intros w R Hs; [split; auto |].
  rewrite RuntimeFacts.run_cons.
  destruct (settled_step v h t0 w e R Hs) as (Hs1 & He1 & Hl1).
  assert (R1 : reachable v h t0 (step v h w e))
    by apply (reachable_run v h t0 w [e] R).
  destruct (IH _ R1 Hs1) as [He2 Hl2].
  split; auto.
Qed.

Lemma not_fresh (v : variant) (h : host) (t0 : Z) (w : world) :
  reachable v h t0 w ->
  (exists m, error (cells w) = Some m) \/ loading (cells w) = false ->
  stage w <> Fresh.
Proof.
  intros R H F.
  destruct (cells_sound v h t0 w R) as (Hf & _).
  rewrite (Hf F) in H. destruct H as [[m H]|H]; discriminate.
Qed.

(** X18. Nothing ever clears the error: once a request has failed, the
    error message stays set for the rest of the life of the component,
    through every later event, later successful responses included, and
    the chart and the table show the message in place of their
    content. *)
Theorem error_is_never_cleared (v : variant) (h : host) (t0 : Z)
  (w : world) (m : string) (evs : list event) :
  reachable v h t0 w ->
  error (cells w) = Some m ->
  m = "データの取得に失敗しました"
  /\ error (cells (run v h w evs)) = Some m
  /\ loading (cells (run v h w evs)) = false
  /\ panel_of (loading (cells (run v h w evs)))
              (error (cells (run v h w evs)))
     = Message "データの取得に失敗しました".
Proof.
  intros R Hm.
  assert (Hs : stage w <> Fresh)
    by (apply (not_fresh v h t0 w R); left; exists m; exact Hm).
  destruct (settled_run v h t0 evs w R Hs) as [He _].
  pose proof (He m Hm) as Hm'.
  destruct (cells_sound v h t0 _ (reachable_run v h t0 w evs R))
    as (_ & _ & Herr & _).
  destruct (Herr m Hm') as [-> Hl].
  split; [reflexivity | split; [exact Hm' | split; [exact Hl |]]].
  rewrite Hm', Hl. reflexivity.
Qed.

Lemma error_is_never_cleared_witness :
  reachable Sensors bare_host 0
    (run Sensors bare_host (boot 0) [Mount; Settle Rejected])
  /\ error (cells (run Sensors bare_host (boot 0) [Mount; Settle Rejected]))
     = Some fetch_failed
  /\ data (cells (run Sensors bare_host (boot 0)
                    [Mount; Settle Rejected; Advance 5000;
                     Settle (Json (Arr [Obj [("time", Num 0);
                                             ("temperature", Num 20);
                                             ("humidity", Num 50)]]))]))
     = [reading_at 0 20 50]
  /\ panel_of
       (loading (cells (run Sensors bare_host
                          (run Sensors bare_host (boot 0)
                             [Mount; Settle Rejected])
                          [Advance 5000;
                           Settle (Json (Arr [Obj [("time", Num 0);
                                                   ("temperature", Num 20);
                                                   ("humidity", Num 50)]]))])))
       (error (cells (run Sensors bare_host
                        (run Sensors bare_host (boot 0)
                           [Mount; Settle Rejected])
                        [Advance 5000;
                         Settle (Json (Arr [Obj [("time", Num 0);
                                                 ("temperature", Num 20);
                                                 ("humidity", Num 50)]]))])))
     = Message "データの取得に失敗しました".
Proof.
  assert (R : reachable Sensors bare_host 0
                (run Sensors bare_host (boot 0) [Mount; Settle Rejected]))
    by (eexists; reflexivity).
  split; [exact R | split; [reflexivity | split; [reflexivity |]]].
  apply (error_is_never_cleared Sensors bare_host 0
           (run Sensors bare_host (boot 0) [Mount; Settle Rejected])
           fetch_failed
           [Advance 5000;
            Settle (Json (Arr [Obj [("time", Num 0);
                                    ("temperature", Num 20);
                                    ("humidity", Num 50)]]))]
           R eq_refl).
Defined.

(** X19. The spinner shows from the start until the first request
    ends, and never again: while [loading] holds nothing has been
    received ([data] and [filteredData] are empty, no error is set);
    any request that ends on a mounted component, failed or not, ends
    it; and no later event, a new poll included, brings it back. *)
Theorem spinner_until_first_response (v : variant) (h : host) (t0 : Z)
  (w : world) :
  reachable v h t0 w ->
  (loading (cells w) = true ->
   data (cells w) = [] /\ filteredData (cells w) = []
   /\ error (cells w) = None
   /\ panel_of (loading (cells w)) (error (cells w)) = Spinner)
  /\ (forall p r, stage w = Mounted -> pending w = S p ->
                  loading (cells (step v h w (Settle r))) = false)
  /\ (loading (cells w) = false ->
      forall evs, loading (cells (run v h w evs)) = false).
Proof.
  intros R. destruct (cells_sound v h t0 w R) as (_ & Hload & _).
  split; [| split].
  - intros L. destruct (Hload L) as (D & F & E & _).
    rewrite L. repeat split; assumption.
  - intros p r Hs Hp. unfold step. rewrite Hp. unfold is_mounted.
    rewrite Hs.
    destruct (fetchData_cases v h r)
      as [[_ E]|(json & fd & _ & _ & [E|(l & _ & _ & E)])];
      rewrite E; reflexivity.
  - intros L evs.
    assert (Hs : stage w <> Fresh)
      by (apply (not_fresh v h t0 w R); right; exact L).
    apply (settled_run v h t0 evs w R Hs). exact L.
Qed.

Lemma spinner_until_first_response_witness :
  reachable Sensors bare_host 0
    (run Sensors bare_host (boot 0) [Mount; Advance 12000])
  /\ loading (cells (run Sensors bare_host (boot 0) [Mount; Advance 12000]))
     = true
  /\ panel_of
       (loading (cells (run Sensors bare_host (boot 0)
                          [Mount; Advance 12000])))
       (error (cells (run Sensors bare_host (boot 0)
                        [Mount; Advance 12000])))
     = Spinner
  /\ loading (cells (run Sensors bare_host (boot 0)
                       [Mount; Advance 12000; Settle (Json (Arr []))]))
     = false.
Proof.
  assert (R : reachable Sensors bare_host 0
                (run Sensors bare_host (boot 0) [Mount; Advance 12000]))
    by (eexists; reflexivity).
  split; [exact R | split; [reflexivity | split]].
  - apply (proj1 (spinner_until_first_response Sensors bare_host 0 _ R)).
    reflexivity.
  - apply (proj1 (proj2 (spinner_until_first_response Sensors bare_host 0
                           _ R)) 2%nat (Json (Arr []))); reflexivity.
Defined.





Lemma plain_timer (h : host) (w : world) (e : event) :
  timer w = None -> timer (step Plain h w e) = None.
Proof.
  intros Ht. destruct e as [| |dt|r|r]; unfold step.
  - destruct (stage w); auto.
  - destruct (stage w); auto.
  - rewrite Ht. reflexivity.
  - destruct (pending w); [auto |]. destruct (is_mounted w); auto.
  - destruct (is_mounted w && negb (TimeRange_eqb r (timeRange (cells w))));
      auto.
Qed.

Lemma plain_idle_step (h : host) (w : world) (e : event) :
  timer w = None -> stage w <> Fresh -> pending w = 0%nat ->
  timer (step Plain h w e) = None
  /\ stage (step Plain h w e) <> Fresh
  /\ pending (step Plain h w e) = 0%nat
  /\ data (cells (step Plain h w e)) = data (cells w)
  /\ loading (cells (step Plain h w e)) = loading (cells w)
  /\ error (cells (step Plain h w e)) = error (cells w).
Proof.
  intros Ht Hs Hp. destruct e as [| |dt|r|r]; unfold step.
  - destruct (stage w) eqn:E; [contradiction | |];
      rewrite ?E; repeat split; auto; discriminate.
  - destruct (stage w) eqn:E; cbn [timer stage pending cells cleanup];
      rewrite ?E; repeat split; auto; discriminate.
  - rewrite Ht. cbn [timer stage pending cells]. auto 10.
  - rewrite Hp. auto 10.
  - destruct (is_mounted w && negb (TimeRange_eqb r (timeRange (cells w))));
      cbn [timer stage pending cells]; auto 10.
Qed.

(** X21. The [Plain] variant shows a snapshot: it starts one request,
    on mount, and once that request has ended nothing that happens
    later (time passing, selecting a window, teardown) changes [data],
    the loading state or the error; only reloading the page fetches
    again. *)
Theorem Plain_is_a_snapshot (h : host) (t0 : Z) (w : world)
  (evs : list event) :
  reachable Plain h t0 w ->
  stage w <> Fresh ->
  pending w = 0%nat ->
  (List.length (started w) <= 1)%nat
  /\ started (run Plain h w evs) = started w
  /\ pending (run Plain h w evs) = 0%nat
  /\ data (cells (run Plain h w evs)) = data (cells w)
  /\ loading (cells (run Plain h w evs)) = loading (cells w)
  /\ error (cells (run Plain h w evs)) = error (cells w).
Proof.
  intros R Hs Hp.
  assert (Ht : timer w = None
               /\ (stage w = Fresh -> started w = [])
               /\ (List.length (started w) <= 1)%nat).
  { clear Hs Hp. revert w R. apply reachable_ind.
    - repeat split; simpl; lia.
    - intros w e _ (Ht & Hf & Hl).
      split; [apply plain_timer; exact Ht |].
      destruct e as [| |dt|r|r]; unfold step.
      + destruct (stage w) eqn:E;
          [| split; [intros F; congruence | exact Hl]
           | split; [intros F; congruence | exact Hl]].
        cbn [started stage]. rewrite (Hf eq_refl).
        split; [discriminate | simpl; lia].
      + destruct (stage w) eqn:E; cbn [started stage]; rewrite ?E;
          (split; [first [exact Hf | intros; congruence] | exact Hl]).
      + rewrite Ht. cbn [started stage]. split; assumption.
      + destruct (pending w); [split; assumption |].
        destruct (is_mounted w); cbn [started stage]; split; assumption.
      + destruct (is_mounted w
                  && negb (TimeRange_eqb r (timeRange (cells w))));
          cbn [started stage]; split; assumption. }
  destruct Ht as (Ht & _ & Hlen). split; [exact Hlen |].
  destruct (RuntimeFacts.plain_run h evs w Ht Hs) as [_ Est].
  split; [exact Est |].
  clear R Hlen Est. revert w Ht Hs Hp.
  induction evs as [|e evs IH]; intros w Ht Hs Hp; [auto |].
  rewrite RuntimeFacts.run_cons.
  destruct (plain_idle_step h w e Ht Hs Hp) as (Ht1 & Hs1 & Hp1 & D & L & E).
  destruct (IH _ Ht1 Hs1 Hp1) as (P2 & D2 & L2 & E2).
  repeat split; congruence.
Qed.

Lemma Plain_is_a_snapshot_witness :
  reachable Plain bare_host 0
    (run Plain bare_host (boot 0)
       [Mount; Settle (Json (Arr [Obj [("time", Num 0);
                                       ("temperature", Num 20);
                                       ("humidity", Num 50)]]))])
  /\ pending (run Plain bare_host (boot 0)
                [Mount; Settle (Json (Arr [Obj [("time", Num 0);
                                                ("temperature", Num 20);
                                                ("humidity", Num 50)]]))])
     = 0%nat
  /\ started (run Plain bare_host
                (run Plain bare_host (boot 0)
                   [Mount; Settle (Json (Arr [Obj [("time", Num 0);
                                                   ("temperature", Num 20);
                                                   ("humidity", Num 50)]]))])
                [Advance 600000; Select range_all; Settle Rejected; Unmount])
     = [0]
  /\ map temperature
       (data (cells (run Plain bare_host
                       (run Plain bare_host (boot 0)
                          [Mount;
                           Settle (Json (Arr [Obj [("time", Num 0);
                                                   ("temperature", Num 20);
                                                   ("humidity", Num 50)]]))])
                       [Advance 600000; Select range_all; Settle Rejected;
                        Unmount])))
     = [Num 20].
Proof.
  assert (R : reachable Plain bare_host 0
                (run Plain bare_host (boot 0)
                   [Mount; Settle (Json (Arr [Obj [("time", Num 0);
                                                   ("temperature", Num 20);
                                                   ("humidity", Num 50)]]))]))
    by (eexists; reflexivity).
  split; [exact R | split; [reflexivity |]].
  destruct (Plain_is_a_snapshot bare_host 0 _
              [Advance 600000; Select range_all; Settle Rejected; Unmount]
              R ltac:(discriminate) eq_refl) as (_ & Es & _ & Ed & _).
  split; [rewrite Es | rewrite Ed]; reflexivity.
Defined.

End LifeFacts.
